(** * dm_resnet_train: the ResNet training driver for mammograms

    A shallow embedding of [training/dm_resnet_train.py]: the function
    [run] (metadata split, generator set-up, optional preloading of the
    validation set, model dispatch, multi-GPU replication, compilation,
    training call, training report, final save) and the command-line
    boundary that builds its keyword arguments.

    The script is Python 2 glue code around Keras, scikit-learn and the
    repository's own helper modules.  Values the script only passes around
    are kept as Python values ([pyval]); objects built by the collaborators
    are kept as the constructor calls that made them; what the collaborators
    answer is read from a [world]. *)

From Stdlib Require Import ZArith List String Ascii Bool Lia.
From Stdlib Require Import Floats.SpecFloat.
From stdpp Require Import base gmap strings list fin_maps.

#[local] Set Warnings "-register-all".
Local Open Scope Z_scope.

(** ** Python values and builtins *)

(** The exceptions the script can raise itself or through a builtin. *)
Inductive exn : Type :=
  | Exception          (* the bare [raise Exception] of lines 124 and 127 *)
  | IndexError
  | TypeError
  | KeyError
  | ValueError
  | OverflowError
  | UnboundLocalError.

(** Python values as far as the script looks into them: numbers, strings and
    sequences (lists, tuples and numpy arrays are all indexed and measured
    the same way).  Floats are IEEE 754 binary floats as specified by
    [spec_float]. *)
Inductive pyval : Type :=
  | PyNone
  | PyInt (z : Z)
  | PyFloat (f : spec_float)
  | PyStr (s : string)
  | PySeq (xs : list pyval).

(** [len(v)] *)
Definition py_len (v : pyval) : exn + Z :=
  match v with
  | PySeq xs => inr (Z.of_nat (length xs))
  | PyStr s => inr (Z.of_nat (String.length s))
  | _ => inl TypeError
  end.

(** [v[i]] for a literal, non-negative index [i]. *)
Definition py_getitem (v : pyval) (i : nat) : exn + pyval :=
  match v with
  | PySeq xs =>
      match nth_error xs i with
      | Some x => inr x
      | None => inl IndexError
      end
  | PyStr s =>
      match String.get i s with
      | Some c => inr (PyStr (String c EmptyString))
      | None => inl IndexError
      end
  | _ => inl TypeError
  end.

(** The float [1.0] (binary64: mantissa [2^52], exponent [-52]). *)
Definition float_one : spec_float := S754_finite false 4503599627370496 (-52).
(** The float [0.1] rounded to binary64. *)
Definition float_0_1 : spec_float := S754_finite false 7205759403792794 (-56).
(** The float [0.9] rounded to binary64. *)
Definition float_0_9 : spec_float := S754_finite false 8106479329266893 (-53).
(** The float [0.0]. *)
Definition float_zero : spec_float := S754_zero false.

(** [int(x)] on a float: truncation toward zero; infinities and NaN raise. *)
Definition py_int_of_float (x : spec_float) : exn + Z :=
  match x with
  | S754_zero _ => inr 0
  | S754_infinity _ => inl OverflowError
  | S754_nan => inl ValueError
  | S754_finite s m e =>
      let a := if 0 <=? e then Z.pos m * 2 ^ e else Z.pos m / 2 ^ (- e) in
      inr (if s then - a else a)
  end.

(** [min(l)] on a list of numpy floats: the first element is the candidate
    and a later item replaces it when [item < candidate]. *)
Definition py_min (l : list spec_float) : exn + spec_float :=
  match l with
  | [] => inl ValueError
  | x :: r => inr (fold_left (fun m item => if SFltb item m then item else m) r x)
  end.

(** [l == m] for a list [l] and a numpy float [m]: the scalar broadcasts and
    the comparison is elementwise, with the equality of IEEE 754 (NaN equals
    nothing, [-0.0] equals [0.0]). *)
Definition np_eq (l : list spec_float) (m : spec_float) : list bool :=
  map (fun x => SFeqb x m) l.

(** [np.where(mask)] for a one-dimensional mask: the indices that hold
    [True], in increasing order. *)
Fixpoint where_from (i : nat) (mask : list bool) : list nat :=
  match mask with
  | [] => []
  | b :: r => if b then i :: where_from (S i) r else where_from (S i) r
  end.

Definition np_where (mask : list bool) : list nat := where_from 0 mask.

(** ** Objects built by the collaborators

    The collaborators ([DMMetaManager], [DMImageDataGenerator], the ResNet
    builders, [make_parallel], Keras) are not part of this file; an object
    they return is represented by the call that made it. *)

(** [DMMetaManager(exam_tsv=..., img_tsv=..., img_folder=..., img_extension=...)];
    [exam_tsv] is [None] after [--no-exam-tsv]. *)
Record meta_manager : Type := {
  meta_exam_tsv : option string;
  meta_img_tsv : string;
  meta_img_folder : string;
  meta_img_extension : string
}.

(** The attributes of a [DMImageDataGenerator] this script passes or assigns. *)
Record image_generator : Type := {
  horizontal_flip : bool;
  vertical_flip : bool;
  featurewise_center : bool;
  featurewise_std_normalization : bool;
  samplewise_center : bool;
  samplewise_std_normalization : bool;
  mean : option spec_float;
  std : option spec_float
}.

(** Keyword arguments of [flow_from_exam_list] / [flow_from_img_list]; a
    keyword the call does not pass is [None]. *)
Record flow_args : Type := {
  flow_target_size : Z * Z;
  flow_target_scale : Z;
  flow_batch_size : Z;
  flow_balance_classes : option spec_float;
  flow_all_neg_skip : option spec_float;
  flow_shuffle : option bool;
  flow_seed : option Z;
  flow_validation_mode : option bool;
  flow_class_mode : string
}.

Inductive flow_source : Type :=
  | FromExamList (exams : list pyval)
  | FromImgList (imgs labs : list pyval).

(** A batch generator: the image generator it was made from, what it
    iterates over and the keywords it was made with. *)
Record generator : Type := {
  gen_config : image_generator;
  gen_source : flow_source;
  gen_args : flow_args
}.

Inductive metric : Type := DMMetrics_sensitivity | DMMetrics_specificity.

Inductive builder : Type := ResNetBuilder | MultiViewResNetBuilder.

(** The builder methods [build_resnet_18], ..., [build_resnet_152]. *)
Inductive architecture : Type :=
  | build_resnet_18
  | build_resnet_34
  | build_resnet_50
  | build_dm_resnet_14
  | build_dm_resnet_47rb5
  | build_dm_resnet_56rb6
  | build_dm_resnet_65rb7
  | build_resnet_101
  | build_resnet_152.

(** The positional arguments every builder method receives. *)
Record build_args : Type := {
  b_input_shape : Z * Z * Z;
  b_num_outputs : Z;
  b_nb_init_filter : Z;
  b_init_filter_size : Z;
  b_init_conv_stride : Z;
  b_pool_size : Z;
  b_pool_stride : Z;
  b_weight_decay : spec_float;
  b_alpha : spec_float;
  b_l1_ratio : spec_float;
  b_inp_dropout : spec_float;
  b_hidden_dropout : spec_float
}.

Inductive model : Type :=
  | load_model (path : string) (custom_objects : gmap string metric)
  | build (b : builder) (arch : architecture) (args : build_args)
  | make_parallel (m : model) (gpu_count : Z).

(** [SGD(lr=..., momentum=..., decay=..., nesterov=...)] *)
Inductive optimizer : Type :=
  | SGD (lr momentum decay : spec_float) (nesterov : bool).

(** What is handed over as validation data: the batch preloaded into RAM or
    the validation generator. *)
Inductive val_data : Type :=
  | ValSet (validation_set : pyval)
  | ValGen (val_generator : generator).

Inductive callback : Type :=
  | ReduceLROnPlateau (monitor : string) (factor : spec_float) (patience verbose : Z)
  | EarlyStopping (monitor : string) (patience verbose : Z)
  | DMAucModelCheckpoint (filepath : string) (data : val_data)
      (batch_size nb_test_samples : option Z).

(** Arguments of [model.fit_generator]. *)
Record fit_args : Type := {
  fit_generator : generator;
  fit_samples_per_epoch : Z;
  fit_nb_epoch : Z;
  fit_class_weight : gmap Z spec_float;
  fit_validation_data : val_data;
  fit_nb_val_samples : Z;
  fit_callbacks : list callback;
  fit_nb_worker : Z;
  fit_pickle_safe : bool;
  fit_verbose : Z
}.

(** [hist.history]: a dict from metric name to the per-epoch values, which
    Keras stores as numpy floats. *)
Abbreviation history := (gmap string (list spec_float)).

(** ** Options

    The keyword arguments of [run], which are also the attributes of the
    argparse namespace.  The two differ in [val_size] only: argparse reads a
    float, [run] receives a float or an int. *)
Record options (V : Type) : Type := {
  img_folder : string;
  img_extension : string;
  img_size : list Z;
  img_scale : Z;
  multi_view : bool;
  do_featurewise_norm : bool;
  featurewise_mean : spec_float;
  featurewise_std : spec_float;
  batch_size : Z;
  samples_per_epoch : Z;
  nb_epoch : Z;
  balance_classes : spec_float;
  all_neg_skip : spec_float;
  pos_cls_weight : spec_float;
  nb_init_filter : Z;
  init_filter_size : Z;
  init_conv_stride : Z;
  pool_size : Z;
  pool_stride : Z;
  weight_decay : spec_float;
  alpha : spec_float;
  l1_ratio : spec_float;
  inp_dropout : spec_float;
  hidden_dropout : spec_float;
  init_lr : spec_float;
  val_size : V;
  lr_patience : Z;
  es_patience : Z;
  resume_from : option string;
  net : string;
  load_val_ram : bool;
  exam_tsv : option string;
  img_tsv : string;
  best_model : string;
  final_model : string
}.

Arguments img_folder {V} _.
Arguments img_extension {V} _.
Arguments img_size {V} _.
Arguments img_scale {V} _.
Arguments multi_view {V} _.
Arguments do_featurewise_norm {V} _.
Arguments featurewise_mean {V} _.
Arguments featurewise_std {V} _.
Arguments batch_size {V} _.
Arguments samples_per_epoch {V} _.
Arguments nb_epoch {V} _.
Arguments balance_classes {V} _.
Arguments all_neg_skip {V} _.
Arguments pos_cls_weight {V} _.
Arguments nb_init_filter {V} _.
Arguments init_filter_size {V} _.
Arguments init_conv_stride {V} _.
Arguments pool_size {V} _.
Arguments pool_stride {V} _.
Arguments weight_decay {V} _.
Arguments alpha {V} _.
Arguments l1_ratio {V} _.
Arguments inp_dropout {V} _.
Arguments hidden_dropout {V} _.
Arguments init_lr {V} _.
Arguments val_size {V} _.
Arguments lr_patience {V} _.
Arguments es_patience {V} _.
Arguments resume_from {V} _.
Arguments net {V} _.
Arguments load_val_ram {V} _.
Arguments exam_tsv {V} _.
Arguments img_tsv {V} _.
Arguments best_model {V} _.
Arguments final_model {V} _.

(** What [run] receives. *)
Abbreviation run_args := (options pyval).
(** What [parser.parse_args()] returns. *)
Abbreviation namespace := (options spec_float).

(** ** Effects

    What a run does to the outside, in order. *)
Inductive event : Type :=
  | Next (g : generator)
  | Compile (m : model) (opt : optimizer) (loss : string) (metrics : list metric)
  | FitGenerator (m : model) (a : fit_args)
  | Print (items : list pyval)
  | PrintOptions (run_opts : run_args)
  | Save (m : model) (path : string).

(** A computation: the events it emitted, then an exception or a value. *)
Definition M (A : Type) : Type := list event * (exn + A).

Definition ret {A} (a : A) : M A := ([], inr a).
Definition emit (ev : event) : M unit := ([ev], inr tt).
Definition lift {A} (r : exn + A) : M A := ([], r).

Definition bind {A B} (m : M A) (f : A -> M B) : M B :=
  match m with
  | (l, inl e) => (l, inl e)
  | (l, inr a) => let '(l', r) := f a in (l ++ l', r)
  end.

(** The same for computations without events. *)
Definition ebind {A B} (m : exn + A) (f : A -> exn + B) : exn + B :=
  match m with
  | inl e => inl e
  | inr a => f a
  end.

Declare Scope run_scope.
Delimit Scope run_scope with run.
Notation "x <- m ;; k" := (bind m (fun x => k))
  (at level 100, m at next level, right associativity) : run_scope.
Notation "m ;; k" := (bind m (fun _ => k))
  (at level 100, right associativity) : run_scope.

Declare Scope exn_scope.
Delimit Scope exn_scope with exn.
Notation "x <- m ;; k" := (ebind m (fun x => k))
  (at level 100, m at next level, right associativity) : exn_scope.

Definition events {A} (m : M A) : list event := fst m.
Definition outcome {A} (m : M A) : exn + A := snd m.

(** ** The outside

    The process environment and the answers of the collaborators.  The
    collaborators are taken to return; how they fail is not this script's
    concern. *)
Record world : Type := {
  (** [os.environ] *)
  environ : gmap string string;
  (** the builtin [int] on a string; [None] is its [ValueError] *)
  int_of_str : string -> option Z;
  (** [meta_man.get_flatten_exam_list()] *)
  get_flatten_exam_list : meta_manager -> list pyval;
  (** [meta_man.exam_labs(exam_list)] *)
  exam_labs : meta_manager -> list pyval -> list pyval;
  (** [meta_man.get_flatten_img_list()] *)
  get_flatten_img_list : meta_manager -> list pyval * list pyval;
  (** [train_test_split] applied to the given arrays with [test_size],
      [random_state] and [stratify]: the list of the returned arrays *)
  train_test_split : list (list pyval) -> pyval -> Z -> list pyval -> list (list pyval);
  (** [DMImageDataGenerator(horizontal_flip=..., vertical_flip=...)] *)
  DMImageDataGenerator : bool -> bool -> image_generator;
  (** [next(g)] *)
  next_batch : generator -> pyval;
  (** the [history] dict of what [model.fit_generator(...)] returns *)
  fit_history : model -> fit_args -> history
}.

(** [int(os.getenv(name, default))] with an int [default]. *)
Definition int_getenv (w : world) (name : string) (default : Z) : exn + Z :=
  match environ w !! name with
  | None => inr default
  | Some s =>
      match int_of_str w s with
      | Some z => inr z
      | None => inl ValueError
      end
  end.

(** ** [run], stage by stage *)

(** The variables the two branches of lines 55-66 assign. *)
Inductive split : Type :=
  | ExamSplit (exam_train exam_val : list pyval)
  | ImgSplit (img_train img_val lab_train lab_val : list pyval).

(** Lines 53-54: [meta_man]. *)
Definition meta_man (a : run_args) : meta_manager :=
  {| meta_exam_tsv := exam_tsv a; meta_img_tsv := img_tsv a;
     meta_img_folder := img_folder a; meta_img_extension := img_extension a |}.

(** Lines 55-66, the split itself; unpacking the result needs two arrays per
    array passed. *)
Definition split_data (w : world) (a : run_args) (random_seed : Z) : exn + split :=
  if multi_view a then
    let exam_list := get_flatten_exam_list w (meta_man a) in
    match train_test_split w [exam_list] (val_size a) random_seed
            (exam_labs w (meta_man a) exam_list) with
    | [exam_train; exam_val] => inr (ExamSplit exam_train exam_val)
    | _ => inl ValueError
    end
  else
    let '(img_list, lab_list) := get_flatten_img_list w (meta_man a) in
    match train_test_split w [img_list; lab_list] (val_size a) random_seed lab_list with
    | [img_train; img_val; lab_train; lab_val] =>
        inr (ImgSplit img_train img_val lab_train lab_val)
    | _ => inl ValueError
    end.

(** Lines 60 and 66: [val_size_]. *)
Definition val_size_ (data : split) : Z :=
  match data with
  | ExamSplit _ exam_val => Z.of_nat (length exam_val) * 2  (* L and R. *)
  | ImgSplit _ img_val _ _ => Z.of_nat (length img_val)
  end.

(** Lines 72-79: the normalization attributes assigned on [img_gen]. *)
Definition set_normalization (a : run_args) (img_gen : image_generator) : image_generator :=
  if do_featurewise_norm a then
    {| horizontal_flip := horizontal_flip img_gen;
       vertical_flip := vertical_flip img_gen;
       featurewise_center := true;
       featurewise_std_normalization := true;
       samplewise_center := samplewise_center img_gen;
       samplewise_std_normalization := samplewise_std_normalization img_gen;
       mean := Some (featurewise_mean a);
       std := Some (featurewise_std a) |}
  else
    {| horizontal_flip := horizontal_flip img_gen;
       vertical_flip := vertical_flip img_gen;
       featurewise_center := featurewise_center img_gen;
       featurewise_std_normalization := featurewise_std_normalization img_gen;
       samplewise_center := true;
       samplewise_std_normalization := true;
       mean := mean img_gen;
       std := std img_gen |}.

(** [img_size[i]] *)
Definition img_size_at (a : run_args) (i : nat) : exn + Z :=
  match nth_error (img_size a) i with
  | Some z => inr z
  | None => inl IndexError
  end.

(** [(img_size[0], img_size[1])] *)
Definition target_size (a : run_args) : exn + Z * Z :=
  (h <- img_size_at a 0 ;; w <- img_size_at a 1 ;; inr (h, w))%exn.

(** Lines 81-118: the training and the validation generator.  The four
    validation calls differ in the list they read and in [batch_size], which
    is [val_size_] when the validation set is to be loaded into RAM. *)
Definition make_generators (a : run_args) (img_gen : image_generator) (data : split)
    (random_seed : Z) : exn + generator * generator :=
  (ts <- target_size a ;;
   ts' <- target_size a ;;
   let train_args :=
     {| flow_target_size := ts; flow_target_scale := img_scale a;
        flow_batch_size := batch_size a;
        flow_balance_classes := Some (balance_classes a);
        flow_all_neg_skip := Some (all_neg_skip a);
        flow_shuffle := Some true; flow_seed := Some random_seed;
        flow_validation_mode := None; flow_class_mode := "binary" |} in
   let val_args :=
     {| flow_target_size := ts'; flow_target_scale := img_scale a;
        flow_batch_size := if load_val_ram a then val_size_ data else batch_size a;
        flow_balance_classes := None; flow_all_neg_skip := None;
        flow_shuffle := None; flow_seed := None;
        flow_validation_mode := Some true; flow_class_mode := "binary" |} in
   match data with
   | ExamSplit exam_train exam_val =>
       inr ({| gen_config := img_gen; gen_source := FromExamList exam_train;
               gen_args := train_args |},
            {| gen_config := img_gen; gen_source := FromExamList exam_val;
               gen_args := val_args |})
   | ImgSplit img_train img_val lab_train lab_val =>
       inr ({| gen_config := img_gen; gen_source := FromImgList img_train lab_train;
               gen_args := train_args |},
            {| gen_config := img_gen; gen_source := FromImgList img_val lab_val;
               gen_args := val_args |})
   end)%exn.

(** [len(v[0]) != n] *)
Definition len_item0_differs (v : pyval) (n : Z) : exn + bool :=
  (x <- py_getitem v 0 ;; k <- py_len x ;; inr (negb (k =? n)))%exn.

(** [len(v[0][i]) != n] *)
Definition len_item0_item_differs (v : pyval) (i : nat) (n : Z) : exn + bool :=
  (x <- py_getitem v 0 ;; y <- py_getitem x i ;; k <- py_len y ;;
   inr (negb (k =? n)))%exn.

(** Lines 123-127: the size check on the preloaded validation set, with the
    short-circuit evaluation of [and] and [or]. *)
Definition check_validation_set (multi_view : bool) (validation_set : pyval)
    (val_size_ : Z) : exn + unit :=
  (c1 <- (if negb multi_view then len_item0_differs validation_set val_size_
          else inr false) ;;
   if c1 : bool then inl Exception
   else
     c2 <- (d0 <- len_item0_item_differs validation_set 0 val_size_ ;;
            if d0 : bool then inr true
            else len_item0_item_differs validation_set 1 val_size_) ;;
     if c2 : bool then inl Exception else inr tt)%exn.

(** Lines 121-127: [validation_set] is assigned only under [load_val_ram]. *)
Definition load_validation_set (w : world) (a : run_args) (val_generator : generator)
    (val_size_ : Z) : M (option pyval) :=
  if load_val_ram a then
    (emit (Next val_generator) ;;
     let validation_set := next_batch w val_generator in
     lift (check_validation_set (multi_view a) validation_set val_size_) ;;
     ret (Some validation_set))%run
  else ret None.

(** Lines 143-187: the [if]/[elif] chain over [net]; there is no [else]. *)
Definition select_architecture (net : string) : option architecture :=
  if String.eqb net "resnet18" then Some build_resnet_18
  else if String.eqb net "resnet34" then Some build_resnet_34
  else if String.eqb net "resnet50" then Some build_resnet_50
  else if String.eqb net "dmresnet14" then Some build_dm_resnet_14
  else if String.eqb net "dmresnet47rb5" then Some build_dm_resnet_47rb5
  else if String.eqb net "dmresnet56rb6" then Some build_dm_resnet_56rb6
  else if String.eqb net "dmresnet65rb7" then Some build_dm_resnet_65rb7
  else if String.eqb net "resnet101" then Some build_resnet_101
  else if String.eqb net "resnet152" then Some build_resnet_152
  else None.

(** The argument list every branch of the chain passes to its builder method. *)
Definition builder_args (a : run_args) : exn + build_args :=
  (h <- img_size_at a 0 ;;
   w <- img_size_at a 1 ;;
   inr {| b_input_shape := (1, h, w); b_num_outputs := 1;
          b_nb_init_filter := nb_init_filter a;
          b_init_filter_size := init_filter_size a;
          b_init_conv_stride := init_conv_stride a;
          b_pool_size := pool_size a; b_pool_stride := pool_stride a;
          b_weight_decay := weight_decay a; b_alpha := alpha a;
          b_l1_ratio := l1_ratio a; b_inp_dropout := inp_dropout a;
          b_hidden_dropout := hidden_dropout a |})%exn.

(** Lines 130-187.  The result is the local variable [model]: [None] when no
    branch assigned it. *)
Definition create_model (a : run_args) : exn + option model :=
  match resume_from a with
  | Some path =>
      inr (Some (load_model path
                   (<["specificity"%string := DMMetrics_specificity]>
                      (<["sensitivity"%string := DMMetrics_sensitivity]> ∅))))
  | None =>
      let builder := if multi_view a then MultiViewResNetBuilder else ResNetBuilder in
      match select_architecture (net a) with
      | Some method =>
          (args <- builder_args a ;; inr (Some (build builder method args)))%exn
      | None => inr None
      end
  end.

(** Reading a local variable that may not have been assigned. *)
Definition read_local {A} (v : option A) : exn + A :=
  match v with
  | Some x => inr x
  | None => inl UnboundLocalError
  end.

(** Lines 189-190. *)
Definition replicate (gpu_count : Z) (model_ : option model) : exn + option model :=
  if gpu_count >? 1 then
    (m <- read_local model_ ;; inr (Some (make_parallel m gpu_count)))%exn
  else inr model_.

(** Lines 199-204: the AUC checkpointer. *)
Definition auc_checkpointer (a : run_args) (validation_set : option pyval)
    (val_generator : generator) (val_size_ : Z) : exn + callback :=
  if load_val_ram a then
    (vs <- read_local validation_set ;;
     inr (DMAucModelCheckpoint (best_model a) (ValSet vs) (Some (batch_size a)) None))%exn
  else
    inr (DMAucModelCheckpoint (best_model a) (ValGen val_generator) None (Some val_size_)).

(** Line 212: [validation_set if load_val_ram else val_generator]. *)
Definition validation_data (a : run_args) (validation_set : option pyval)
    (val_generator : generator) : exn + val_data :=
  if load_val_ram a then (vs <- read_local validation_set ;; inr (ValSet vs))%exn
  else inr (ValGen val_generator).

(** Line 211: the dict literal [{ 0: 1.0, 1: pos_cls_weight }]. *)
Definition class_weight (a : run_args) : gmap Z spec_float :=
  <[1 := pos_cls_weight a]> (<[0 := float_one]> ∅).

(** What lines 46-127 leave behind for the rest of [run]. *)
Record prepared : Type := {
  random_seed : Z;
  nb_worker : Z;
  gpu_count : Z;
  data : split;
  train_generator : generator;
  val_generator : generator;
  validation_set : option pyval
}.

(** Lines 46-127: environment variables, train and validation data, image
    generator, validation set in RAM. *)
Definition prepare (w : world) (a : run_args) : M prepared :=
  (random_seed <- lift (int_getenv w "RANDOM_SEED" 12345) ;;
   nb_worker <- lift (int_getenv w "NUM_CPU_CORES" 4) ;;
   gpu_count <- lift (int_getenv w "NUM_GPU_DEVICES" 1) ;;
   data <- lift (split_data w a random_seed) ;;
   let img_gen := set_normalization a (DMImageDataGenerator w true true) in
   gens <- lift (make_generators a img_gen data random_seed) ;;
   validation_set <- load_validation_set w a (snd gens) (val_size_ data) ;;
   ret {| random_seed := random_seed; nb_worker := nb_worker;
          gpu_count := gpu_count; data := data;
          train_generator := fst gens; val_generator := snd gens;
          validation_set := validation_set |})%run.

(** Lines 129-218: model creation, replication, compilation and the training
    call.  The result is the compiled model and the history of the training. *)
Definition fit_model (w : world) (a : run_args) (p : prepared) : M (model * history) :=
  (model_ <- lift (create_model a) ;;
   model_ <- lift (replicate (gpu_count p) model_) ;;
   let sgd := SGD (init_lr a) float_0_9 float_zero true in
   m <- lift (read_local model_) ;;
   emit (Compile m sgd "binary_crossentropy"
           [DMMetrics_sensitivity; DMMetrics_specificity]) ;;
   let reduce_lr := ReduceLROnPlateau "val_loss" float_0_1 (lr_patience a) 1 in
   let early_stopping := EarlyStopping "val_loss" (es_patience a) 1 in
   checkpointer <- lift (auc_checkpointer a (validation_set p) (val_generator p)
                           (val_size_ (data p))) ;;
   vdata <- lift (validation_data a (validation_set p) (val_generator p)) ;;
   let args :=
     {| fit_generator := train_generator p;
        fit_samples_per_epoch := samples_per_epoch a;
        fit_nb_epoch := nb_epoch a;
        fit_class_weight := class_weight a;
        fit_validation_data := vdata;
        fit_nb_val_samples := val_size_ (data p);
        fit_callbacks := [reduce_lr; early_stopping; checkpointer];
        fit_nb_worker := nb_worker p;
        fit_pickle_safe := true;
        fit_verbose := 2 |} in
   emit (FitGenerator m args) ;;
   ret (m, fit_history w m args))%run.

(** Lines 46-218. *)
Definition train (w : world) (a : run_args) : M (model * history) :=
  (p <- prepare w a ;; fit_model w a p)%run.

(** [d[key]] on a dict. *)
Definition dict_get (d : history) (key : string) : exn + list spec_float :=
  match d !! key with
  | Some v => inr v
  | None => inl KeyError
  end.

(** [l[i]] on a list, for a non-negative [i]. *)
Definition list_get {A} (l : list A) (i : nat) : exn + A :=
  match nth_error l i with
  | Some x => inr x
  | None => inl IndexError
  end.

(** The five [print] statements of lines 225-229. *)
Definition summary_lines (epoch : Z) (loss sensitivity specificity : spec_float)
    : list event :=
  [ Print [PyStr (String "010"%char "==== Training summary ====")];
    Print [PyStr "Minimum val loss achieved at epoch:"; PyInt epoch];
    Print [PyStr "Best val loss:"; PyFloat loss];
    Print [PyStr "Best val sensitivity:"; PyFloat sensitivity];
    Print [PyStr "Best val specificity:"; PyFloat specificity] ].

(** Lines 221-229: the training report. *)
Definition training_report (h : history) : M unit :=
  (val_loss <- lift (dict_get h "val_loss") ;;
   lowest <- lift (py_min val_loss) ;;
   let min_loss_locs := np_where (np_eq val_loss lowest) in
   loc <- lift (list_get min_loss_locs 0) ;;
   best_val_loss <- lift (list_get val_loss loc) ;;
   val_sensitivity <- lift (dict_get h "val_sensitivity") ;;
   best_val_sensitivity <- lift (list_get val_sensitivity loc) ;;
   val_specificity <- lift (dict_get h "val_specificity") ;;
   best_val_specificity <- lift (list_get val_specificity loc) ;;
   (summary_lines (Z.of_nat loc + 1) best_val_loss best_val_sensitivity
      best_val_specificity, inr tt))%run.

(** Lines 231-232. *)
Definition save_final (a : run_args) (m : model) : M unit :=
  if negb (String.eqb (final_model a) "NOSAVE") then emit (Save m (final_model a))
  else ret tt.

(** [run] *)
Definition run (w : world) (a : run_args) : M history :=
  (trained <- train w a ;;
   let '(m, hist) := trained in
   training_report (hist : history) ;;
   save_final a m ;;
   ret hist)%run.

(** ** The command line *)

(** Line 319: [args.val_size if args.val_size < 1 else int(args.val_size)];
    [args.val_size] is a float (argparse [type=float]), and the int [1] it is
    compared with counts as the float [1.0]. *)
Definition forwarded_val_size (v : spec_float) : exn + pyval :=
  if SFltb v float_one then inr (PyFloat v)
  else (z <- py_int_of_float v ;; inr (PyInt z))%exn.

(** Lines 294-329: the keyword arguments built from the namespace. *)
Definition run_opts (args : namespace) : exn + run_args :=
  (vs <- forwarded_val_size (val_size args) ;;
   inr {| img_folder := img_folder args;
          img_extension := img_extension args;
          img_size := img_size args;
          img_scale := img_scale args;
          multi_view := multi_view args;
          do_featurewise_norm := do_featurewise_norm args;
          featurewise_mean := featurewise_mean args;
          featurewise_std := featurewise_std args;
          batch_size := batch_size args;
          samples_per_epoch := samples_per_epoch args;
          nb_epoch := nb_epoch args;
          balance_classes := balance_classes args;
          all_neg_skip := all_neg_skip args;
          pos_cls_weight := pos_cls_weight args;
          nb_init_filter := nb_init_filter args;
          init_filter_size := init_filter_size args;
          init_conv_stride := init_conv_stride args;
          pool_size := pool_size args;
          pool_stride := pool_stride args;
          weight_decay := weight_decay args;
          alpha := alpha args;
          l1_ratio := l1_ratio args;
          inp_dropout := inp_dropout args;
          hidden_dropout := hidden_dropout args;
          init_lr := init_lr args;
          val_size := vs;
          lr_patience := lr_patience args;
          es_patience := es_patience args;
          resume_from := resume_from args;
          net := net args;
          load_val_ram := load_val_ram args;
          exam_tsv := exam_tsv args;
          img_tsv := img_tsv args;
          best_model := best_model args;
          final_model := final_model args |})%exn.

(** Lines 293-331: build the options, print them, call [run]. *)
Definition main (w : world) (args : namespace) : M history :=
  (opts <- lift (run_opts args) ;;
   emit (PrintOptions opts) ;;
   run w opts)%run.

(** ** Vocabulary of the properties *)

Definition is_nan (x : spec_float) : bool :=
  match x with
  | S754_nan => true
  | _ => false
  end.

(** The order of the floats that are not NaN, read off a key: the keys are
    ordered lexicographically, and [-0.0] and [0.0] share one key. *)
Definition order_key (x : spec_float) : option (Z * Z * Z) :=
  match x with
  | S754_nan => None
  | S754_infinity true => Some (-2, 0, 0)
  | S754_finite true m e => Some (-1, - e, Z.neg m)
  | S754_zero _ => Some (0, 0, 0)
  | S754_finite false m e => Some (1, e, Z.pos m)
  | S754_infinity false => Some (2, 0, 0)
  end.

Definition key_lt (a b : Z * Z * Z) : Prop :=
  let '(a1, a2, a3) := a in
  let '(b1, b2, b3) := b in
  a1 < b1 \/ (a1 = b1 /\ (a2 < b2 \/ (a2 = b2 /\ a3 < b3))).

Definition key_compare (a b : Z * Z * Z) : comparison :=
  let '(a1, a2, a3) := a in
  let '(b1, b2, b3) := b in
  match a1 ?= b1 with
  | Eq => match a2 ?= b2 with
          | Eq => a3 ?= b3
          | c => c
          end
  | c => c
  end.

(** [i] is the first index at which [l] attains its minimum, and [x] is the
    value there: [x] is a number, no entry is below it, and every earlier
    entry is above it or is NaN. *)
Definition first_minimum (l : list spec_float) (i : nat) (x : spec_float) : Prop :=
  nth_error l i = Some x /\
  is_nan x = false /\
  (forall j y, nth_error l j = Some y -> SFltb y x = false) /\
  (forall j y, (j < i)%nat -> nth_error l j = Some y ->
               is_nan y = true \/ SFltb x y = true).

(** The training report of history [h] shows the first minimum of the
    validation loss: best epoch one plus its index, and the loss, sensitivity
    and specificity recorded at that index. *)
Definition reports_first_minimum (h : history) : Prop :=
  exists vl vs vp i x se sp,
    h !! "val_loss"%string = Some vl /\
    h !! "val_sensitivity"%string = Some vs /\
    h !! "val_specificity"%string = Some vp /\
    first_minimum vl i x /\
    nth_error vs i = Some se /\
    nth_error vp i = Some sp /\
    events (training_report h) = summary_lines (Z.of_nat i + 1) x se sp.

(** [z] is the finite float [x] truncated toward zero. *)
Definition is_truncation (x : spec_float) (z : Z) : Prop :=
  match x with
  | S754_zero _ => z = 0
  | S754_finite s m e =>
      (if s then z <= 0 else 0 <= z) /\
      if 0 <=? e then Z.abs z = Z.pos m * 2 ^ e
      else Z.abs z * 2 ^ (- e) <= Z.pos m < (Z.abs z + 1) * 2 ^ (- e)
  | _ => False
  end.

(** What the command line forwards as [val_size] for the parsed float [v]:
    [v] itself below one, its integer part from one on. *)
Definition forwards_fraction_or_count (v : spec_float) : Prop :=
  (SFltb v float_one = true -> forwarded_val_size v = inr (PyFloat v)) /\
  (SFleb float_one v = true ->
   exists z, forwarded_val_size v = inr (PyInt z) /\ is_truncation v z).

(** The nine names the dispatch on [net] knows. *)
Definition recognized_nets : list string :=
  [ "resnet18"; "resnet34"; "resnet50"; "dmresnet14"; "dmresnet47rb5";
    "dmresnet56rb6"; "dmresnet65rb7"; "resnet101"; "resnet152" ]%string.

Definition is_replicated (m : model) : bool :=
  match m with
  | make_parallel _ _ => true
  | _ => false
  end.

Definition is_print (ev : event) : bool :=
  match ev with
  | Print _ => true
  | _ => false
  end.

(** What a log shows on the console. *)
Definition printed (l : list event) : list event := List.filter is_print l.

(** The size check of lines 123-127 as the specification has it: the
    preloaded batch holds [val_size_] images, per view in multi-view mode. *)
Definition batch_matches (multi_view : bool) (validation_set : pyval) (val_size_ : Z)
    : Prop :=
  exists x, py_getitem validation_set 0 = inr x /\
    if multi_view then
      exists l r, py_getitem x 0 = inr l /\ py_getitem x 1 = inr r /\
                  py_len l = inr val_size_ /\ py_len r = inr val_size_
    else py_len x = inr val_size_.

(** ** Sample inputs

    A small deterministic outside and the default options, to run the
    definitions on. *)
Module Sample.

(** The binary64 float [m * 2^e]. *)
Definition f64 (m e : Z) : spec_float := binary_normalize 53 1024 m e false.

Definition nan : spec_float := S754_nan.
Definition pos_infinity : spec_float := S754_infinity false.

(** Decimal integers with an optional minus sign. *)
Fixpoint digits (s : string) (acc : Z) : option Z :=
  match s with
  | EmptyString => Some acc
  | String c r =>
      let n := Z.of_nat (nat_of_ascii c) in
      if (48 <=? n) && (n <=? 57) then digits r (10 * acc + (n - 48)) else None
  end.

Definition parse_int (s : string) : option Z :=
  match s with
  | EmptyString => None
  | String "-"%char EmptyString => None
  | String "-"%char r => option_map Z.opp (digits r 0)
  | _ => digits s 0
  end.

(** A one-channel image of one row and two columns. *)
Definition image : pyval :=
  PySeq [PySeq [PySeq [PyFloat float_zero; PyFloat float_zero]]].

Definition exams : list pyval :=
  [PyStr "exam1"; PyStr "exam2"; PyStr "exam3"; PyStr "exam4"].

Definition images : list pyval :=
  [PyStr "a.dcm"; PyStr "b.dcm"; PyStr "c.dcm"; PyStr "d.dcm"; PyStr "e.dcm"].

Definition labels : list pyval := [PyInt 0; PyInt 1; PyInt 0; PyInt 1; PyInt 0].

(** A split that puts the last entries of every array into the test part:
    as many as [test_size] says when it is an int, two otherwise. *)
Definition split_tail (arrays : list (list pyval)) (test_size : pyval) (seed : Z)
    (stratify : list pyval) : list (list pyval) :=
  let n_test := match test_size with PyInt z => Z.to_nat z | _ => 2%nat end in
  flat_map (fun arr => let k := (length arr - n_test)%nat in
                       [firstn k arr; skipn k arr]) arrays.

Definition plain_generator (hflip vflip : bool) : image_generator :=
  {| horizontal_flip := hflip; vertical_flip := vflip;
     featurewise_center := false; featurewise_std_normalization := false;
     samplewise_center := false; samplewise_std_normalization := false;
     mean := None; std := None |}.

(** One batch holding the whole list behind the generator: images and
    labels in single-view mode, the left and the right images (two per exam)
    and labels in multi-view mode. *)
Definition whole_batch (g : generator) : pyval :=
  match gen_source g with
  | FromImgList imgs labs => PySeq [PySeq (map (fun _ => image) imgs); PySeq labs]
  | FromExamList exams =>
      let views := flat_map (fun _ => [image; image]) exams in
      PySeq [PySeq [PySeq views; PySeq views];
             PySeq (flat_map (fun _ => [PyInt 0; PyInt 0]) exams)]
  end.

Definition history_of (loss sens spec : list spec_float) : history :=
  <["val_specificity"%string := spec]>
    (<["val_sensitivity"%string := sens]> (<["val_loss"%string := loss]> ∅)).

(** Three epochs; the validation loss is lowest in the second and stays
    there in the third. *)
Definition good_history : history :=
  history_of [f64 3 (-2); f64 1 (-1); f64 1 (-1)]
             [f64 1 (-2); f64 1 (-1); f64 3 (-2)]
             [f64 3 (-2); f64 7 (-3); f64 1 (-1)].

(** A training that diverged in the first epoch. *)
Definition nan_history : history :=
  history_of [nan; f64 1 (-1)] [f64 1 (-2); f64 1 (-1)] [f64 3 (-2); f64 7 (-3)].

Definition outside (env : gmap string string) (h : history) : world :=
  {| environ := env;
     int_of_str := parse_int;
     get_flatten_exam_list := fun _ => exams;
     exam_labs := fun _ l => map (fun _ => PyInt 0) l;
     get_flatten_img_list := fun _ => (images, labels);
     train_test_split := split_tail;
     DMImageDataGenerator := plain_generator;
     next_batch := whole_batch;
     fit_history := fun _ _ => h |}.

(** What the argument parser returns for the image folder [imgs] and the
    given [--val-size], flags, [--net] and [--final-model]; the other
    options keep their defaults. *)
Definition parsed_sized (size : spec_float)
    (multi_view_flag featurewise_norm loadval_ram : bool)
    (net_name final_name : string) : namespace :=
  {| img_folder := "imgs";
     img_extension := "dcm";
     img_size := [288; 224];
     img_scale := 4095;
     multi_view := multi_view_flag;
     do_featurewise_norm := featurewise_norm;
     featurewise_mean := S754_finite false 7010486138699776 (-44);
     featurewise_std := S754_finite false 5522187199342182 (-43);
     batch_size := 16;
     samples_per_epoch := 160;
     nb_epoch := 20;
     balance_classes := float_zero;
     all_neg_skip := float_zero;
     pos_cls_weight := float_one;
     nb_init_filter := 64;
     init_filter_size := 7;
     init_conv_stride := 2;
     pool_size := 3;
     pool_stride := 2;
     weight_decay := S754_finite false 7378697629483821 (-66);
     alpha := float_one;
     l1_ratio := S754_finite false 4503599627370496 (-53);
     inp_dropout := float_zero;
     hidden_dropout := float_zero;
     init_lr := S754_finite false 5764607523034235 (-59);
     val_size := size;
     lr_patience := 5;
     es_patience := 10;
     resume_from := None;
     net := net_name;
     load_val_ram := loadval_ram;
     exam_tsv := Some "./metadata/exams_metadata.tsv"%string;
     img_tsv := "./metadata/images_crosswalk.tsv";
     best_model := "./modelState/dm_resnet_best_model.h5";
     final_model := final_name |}.

(** The same with the default [--val-size] of [0.2]. *)
Definition parsed : bool -> bool -> bool -> string -> string -> namespace :=
  parsed_sized (S754_finite false 7205759403792794 (-55)).

(** No flag given: all defaults. *)
Definition parsed_defaults : namespace :=
  parsed false true false "resnet50" "NOSAVE".

(** The options [run] gets for a parsed namespace. *)
Definition options_of (args : namespace) : run_args :=
  match run_opts args with
  | inr opts => opts
  | inl _ =>
      {| img_folder := ""; img_extension := ""; img_size := []; img_scale := 0;
         multi_view := false; do_featurewise_norm := false;
         featurewise_mean := nan; featurewise_std := nan; batch_size := 0;
         samples_per_epoch := 0; nb_epoch := 0; balance_classes := nan;
         all_neg_skip := nan; pos_cls_weight := nan; nb_init_filter := 0;
         init_filter_size := 0; init_conv_stride := 0; pool_size := 0;
         pool_stride := 0; weight_decay := nan; alpha := nan; l1_ratio := nan;
         inp_dropout := nan; hidden_dropout := nan; init_lr := nan;
         val_size := PyNone; lr_patience := 0; es_patience := 0;
         resume_from := None; net := ""; load_val_ram := false;
         exam_tsv := None; img_tsv := ""; best_model := ""; final_model := "" |}
  end.

Definition defaults : run_args := options_of parsed_defaults.

End Sample.

(** The options [a] with [resume_from] set to [path], as after
    [--resume-from path]. *)
Definition resuming (path : string) (a : run_args) : run_args :=
  {| img_folder := img_folder a; img_extension := img_extension a;
     img_size := img_size a; img_scale := img_scale a;
     multi_view := multi_view a; do_featurewise_norm := do_featurewise_norm a;
     featurewise_mean := featurewise_mean a; featurewise_std := featurewise_std a;
     batch_size := batch_size a; samples_per_epoch := samples_per_epoch a;
     nb_epoch := nb_epoch a; balance_classes := balance_classes a;
     all_neg_skip := all_neg_skip a; pos_cls_weight := pos_cls_weight a;
     nb_init_filter := nb_init_filter a; init_filter_size := init_filter_size a;
     init_conv_stride := init_conv_stride a; pool_size := pool_size a;
     pool_stride := pool_stride a; weight_decay := weight_decay a;
     alpha := alpha a; l1_ratio := l1_ratio a; inp_dropout := inp_dropout a;
     hidden_dropout := hidden_dropout a; init_lr := init_lr a;
     val_size := val_size a; lr_patience := lr_patience a;
     es_patience := es_patience a; resume_from := Some path; net := net a;
     load_val_ram := load_val_ram a; exam_tsv := exam_tsv a;
     img_tsv := img_tsv a; best_model := best_model a;
     final_model := final_model a |}.

(** * Properties *)

(** ** Computations and their events *)

Section Computations.
Context {A B : Type}.
Implicit Types (m : M A) (f : A -> M B).

Lemma events_bind m f :
  events (bind m f) =
  events m ++ match outcome m with inr x => events (f x) | inl _ => [] end.
Proof.
  destruct m as [l [e | x]]; unfold bind, events, outcome; simpl.
  - now rewrite app_nil_r.
  - now destruct (f x).
Qed.

Lemma outcome_bind m f :
  outcome (bind m f) =
  match outcome m with inr x => outcome (f x) | inl e => inl e end.
Proof.
  destruct m as [l [e | x]]; unfold bind, outcome; simpl; [reflexivity |].
  now destruct (f x).
Qed.

Lemma in_events_bind m f ev :
  In ev (events (bind m f)) <->
  In ev (events m) \/ exists x, outcome m = inr x /\ In ev (events (f x)).
Proof.
  rewrite events_bind, in_app_iff. split; (intros [H | H]; [now left | right]).
  - destruct (outcome m) as [e | x]; [contradiction | eauto].
  - destruct H as (x & -> & H). exact H.
Qed.

Lemma outcome_bind_inr m f y :
  outcome (bind m f) = inr y ->
  exists x, outcome m = inr x /\ outcome (f x) = inr y.
Proof.
  rewrite outcome_bind. destruct (outcome m) as [e | x]; [discriminate | eauto].
Qed.
End Computations.

Lemma events_lift {A} (r : exn + A) : events (lift r) = [].
Proof. reflexivity. Qed.

Lemma outcome_lift {A} (r : exn + A) : outcome (lift r) = r.
Proof. reflexivity. Qed.

Lemma ebind_inr {A B} (m : exn + A) (f : A -> exn + B) y :
  ebind m f = inr y -> exists x, m = inr x /\ f x = inr y.
Proof. destruct m as [e | x]; simpl; [discriminate | eauto]. Qed.

(** ** What each stage emits and returns *)

Lemma load_validation_set_events w a g n ev :
  In ev (events (load_validation_set w a g n)) -> ev = Next g.
Proof.
  unfold load_validation_set. destruct (load_val_ram a); [| intros []].
  rewrite in_events_bind. intros [[<- | []] | (_ & _ & H)]; [reflexivity |].
  apply in_events_bind in H as [[] | (_ & _ & [])].
Qed.

Lemma prepare_events w a ev :
  In ev (events (prepare w a)) -> exists g, ev = Next g.
Proof.
  unfold prepare.
  repeat (rewrite in_events_bind; intros [[] | (? & _ & H)]; revert H).
  rewrite in_events_bind. intros [H | (? & _ & [])].
  apply load_validation_set_events in H. eauto.
Qed.

Lemma load_validation_set_inr w a g n v :
  outcome (load_validation_set w a g n) = inr v ->
  if load_val_ram a
  then v = Some (next_batch w g) /\
       check_validation_set (multi_view a) (next_batch w g) n = inr tt
  else v = None.
Proof.
  unfold load_validation_set. destruct (load_val_ram a); [| now intros [= <-]].
  intros H. apply outcome_bind_inr in H as (_ & _ & H).
  apply outcome_bind_inr in H as ([] & H1 & [= <-]). now split.
Qed.

Lemma prepare_inr w a p :
  outcome (prepare w a) = inr p ->
  int_getenv w "RANDOM_SEED" 12345 = inr (random_seed p) /\
  int_getenv w "NUM_CPU_CORES" 4 = inr (nb_worker p) /\
  int_getenv w "NUM_GPU_DEVICES" 1 = inr (gpu_count p) /\
  split_data w a (random_seed p) = inr (data p) /\
  make_generators a (set_normalization a (DMImageDataGenerator w true true))
    (data p) (random_seed p) = inr (train_generator p, val_generator p) /\
  outcome (load_validation_set w a (val_generator p) (val_size_ (data p)))
    = inr (validation_set p).
Proof.
  unfold prepare. intros H.
  apply outcome_bind_inr in H as (seed & H1 & H).
  apply outcome_bind_inr in H as (nw & H2 & H).
  apply outcome_bind_inr in H as (gc & H3 & H).
  apply outcome_bind_inr in H as (d & H4 & H).
  apply outcome_bind_inr in H as ([tg vg] & H5 & H).
  apply outcome_bind_inr in H as (vs & H6 & [= <-]).
  simpl in *. auto 10.
Qed.

Lemma create_model_not_replicated a base :
  create_model a = inr (Some base) -> is_replicated base = false.
Proof.
  unfold create_model. destruct (resume_from a); [now intros [= <-] |].
  destruct (select_architecture (net a)); [| discriminate].
  intros H. apply ebind_inr in H as (args & _ & [= <-]). reflexivity.
Qed.

Lemma model_in_use g mv mv' m :
  replicate g mv = inr mv' -> read_local mv' = inr m ->
  exists base, mv = Some base /\
               m = if g >? 1 then make_parallel base g else base.
Proof.
  unfold replicate. destruct (g >? 1).
  - intros H. apply ebind_inr in H as (base & Hb & [= <-]). intros [= <-].
    destruct mv; [injection Hb as -> | discriminate]. eauto.
  - intros [= <-]. destruct mv; [intros [= <-] | discriminate]. eauto.
Qed.

(** The events of lines 129-218: the compilation of the model in use, and the
    training call on that model with its keywords. *)
Lemma fit_model_events w a p ev :
  In ev (events (fit_model w a p)) ->
  exists base m,
    create_model a = inr (Some base) /\
    m = (if gpu_count p >? 1 then make_parallel base (gpu_count p) else base) /\
    ((exists o l ms, ev = Compile m o l ms) \/
     exists fa ckpt,
       ev = FitGenerator m fa /\
       auc_checkpointer a (validation_set p) (val_generator p) (val_size_ (data p))
         = inr ckpt /\
       validation_data a (validation_set p) (val_generator p)
         = inr (fit_validation_data fa) /\
       fit_generator fa = train_generator p /\
       fit_class_weight fa = class_weight a /\
       fit_nb_val_samples fa = val_size_ (data p) /\
       fit_callbacks fa =
         [ReduceLROnPlateau "val_loss" float_0_1 (lr_patience a) 1;
          EarlyStopping "val_loss" (es_patience a) 1; ckpt]).
Proof.
  unfold fit_model.
  rewrite in_events_bind. intros [[] | (mv & Hc & H)]. revert H.
  rewrite in_events_bind. intros [[] | (mv' & Hr & H)]. revert H.
  rewrite in_events_bind. intros [[] | (m & Hm & H)].
  rewrite outcome_lift in Hc; rewrite outcome_lift in Hr; rewrite outcome_lift in Hm.
  destruct (model_in_use _ _ _ _ Hr Hm) as (base & -> & Hbase).
  exists base, m. split; [exact Hc |]. split; [exact Hbase |].
  apply in_events_bind in H as [[<- | []] | (_ & _ & H)]; [left; eauto |].
  apply in_events_bind in H as [[] | (ckpt & Hk & H)].
  apply in_events_bind in H as [[] | (vdata & Hv & H)].
  apply in_events_bind in H as [[<- | []] | (_ & _ & [])].
  right. eexists _, ckpt. split; [reflexivity |]. simpl. auto 10.
Qed.

Lemma fit_model_inr w a p m h :
  outcome (fit_model w a p) = inr (m, h) ->
  exists fa, In (FitGenerator m fa) (events (fit_model w a p)) /\
             h = fit_history w m fa.
Proof.
  unfold fit_model. intros H.
  apply outcome_bind_inr in H as (mv & Hc & H).
  apply outcome_bind_inr in H as (mv' & Hr & H).
  apply outcome_bind_inr in H as (m' & Hm & H).
  apply outcome_bind_inr in H as (_ & _ & H).
  apply outcome_bind_inr in H as (ckpt & Hk & H).
  apply outcome_bind_inr in H as (vdata & Hv & H).
  apply outcome_bind_inr in H as (_ & _ & [= <- <-]).
  eexists. split; [| reflexivity].
  apply in_events_bind. right. exists mv. split; [exact Hc |].
  apply in_events_bind. right. exists mv'. split; [exact Hr |].
  apply in_events_bind. right. exists m'. split; [exact Hm |].
  apply in_events_bind. right. exists tt. split; [reflexivity |].
  apply in_events_bind. right. exists ckpt. split; [exact Hk |].
  apply in_events_bind. right. exists vdata. split; [exact Hv |].
  apply in_events_bind. left. now left.
Qed.

Lemma bind_lift {A B} (r : exn + A) (f : A -> M B) :
  bind (lift r) f = match r with inl e => ([], inl e) | inr x => f x end.
Proof. destruct r as [e | x]; simpl; [reflexivity | now destruct (f x)]. Qed.

Lemma training_report_events h :
  events (training_report h) = [] \/
  exists i x se sp, events (training_report h) = summary_lines i x se sp /\
                    outcome (training_report h) = inr tt.
Proof.
  unfold training_report.
  repeat (rewrite bind_lift;
          match goal with
          | |- context [match ?r with inl _ => _ | inr _ => _ end] =>
              destruct r; [now left |]
          end).
  right. eauto 10.
Qed.

Lemma training_report_prints h ev :
  In ev (events (training_report h)) -> is_print ev = true.
Proof.
  destruct (training_report_events h) as [-> | (i & x & se & sp & -> & _)];
    [intros [] |].
  unfold summary_lines. simpl. intros H.
  repeat (destruct H as [<- | H]; [reflexivity |]). contradiction.
Qed.

Lemma save_final_events a m ev :
  In ev (events (save_final a m)) <->
  ev = Save m (final_model a) /\ final_model a <> "NOSAVE"%string.
Proof.
  unfold save_final. destruct (String.eqb_spec (final_model a) "NOSAVE"); simpl.
  - split; [intros [] | intros [_ H]; contradiction].
  - split; [intros [<- | []]; now split | intros [-> _]; now left].
Qed.

(** Where an event of a run comes from. *)
Lemma run_events w a ev :
  In ev (events (run w a)) ->
  (exists g, ev = Next g) \/
  (exists p, outcome (prepare w a) = inr p /\ In ev (events (fit_model w a p))) \/
  (exists m h, outcome (train w a) = inr (m, h) /\
     (In ev (events (training_report h)) \/
      (outcome (training_report h) = inr tt /\ In ev (events (save_final a m))))).
Proof.
  unfold run. rewrite in_events_bind. intros [H | ([m h] & Ht & H)].
  - unfold train in H. apply in_events_bind in H as [H | H].
    + left. now apply (prepare_events w a).
    + right. left. exact H.
  - right. right. exists m, h. split; [exact Ht |].
    apply in_events_bind in H as [H | ([] & Hr & H)]; [now left |].
    right. split; [exact Hr |].
    apply in_events_bind in H as [H | (_ & _ & [])]. exact H.
Qed.

Lemma run_fit_event w a m fa :
  In (FitGenerator m fa) (events (run w a)) ->
  exists p, outcome (prepare w a) = inr p /\
            In (FitGenerator m fa) (events (fit_model w a p)).
Proof.
  intros H. apply run_events in H as [(g & H) | [H | (m' & h & _ & [H | [_ H]])]].
  - discriminate.
  - exact H.
  - apply training_report_prints in H. discriminate.
  - apply save_final_events in H as [H _]. discriminate.
Qed.

Lemma split_data_shape w a seed d :
  split_data w a seed = inr d ->
  if multi_view a
  then exists exam_train exam_val,
         train_test_split w [get_flatten_exam_list w (meta_man a)] (val_size a) seed
           (exam_labs w (meta_man a) (get_flatten_exam_list w (meta_man a)))
         = [exam_train; exam_val] /\
         d = ExamSplit exam_train exam_val
  else exists img_train img_val lab_train lab_val,
         train_test_split w
           [fst (get_flatten_img_list w (meta_man a));
            snd (get_flatten_img_list w (meta_man a))]
           (val_size a) seed (snd (get_flatten_img_list w (meta_man a)))
         = [img_train; img_val; lab_train; lab_val] /\
         d = ImgSplit img_train img_val lab_train lab_val.
Proof.
  unfold split_data. destruct (multi_view a).
  - destruct (train_test_split _ _ _ _ _) as [| tr [| va [| ? ?]]];
      try discriminate.
    intros [= <-]. eauto.
  - destruct (get_flatten_img_list w (meta_man a)) as [imgs labs]. simpl.
    destruct (train_test_split _ _ _ _ _) as [| a1 [| a2 [| a3 [| a4 [| ? ?]]]]];
      try discriminate.
    intros [= <-]. eauto 10.
Qed.

(** C2.  In every run that reaches the training call, the [nb_val_samples]
    keyword is [val_size_], and [val_size_] is twice the number of validation
    exams the split returned in multi-view mode and the number of validation
    images it returned otherwise. *)
Theorem nb_val_samples_counts_validation_set w a m fa :
  In (FitGenerator m fa) (events (run w a)) ->
  exists seed d,
    int_getenv w "RANDOM_SEED" 12345 = inr seed /\
    split_data w a seed = inr d /\
    fit_nb_val_samples fa = val_size_ d /\
    if multi_view a
    then exists exam_train exam_val,
           train_test_split w [get_flatten_exam_list w (meta_man a)] (val_size a) seed
             (exam_labs w (meta_man a) (get_flatten_exam_list w (meta_man a)))
           = [exam_train; exam_val] /\
           val_size_ d = 2 * Z.of_nat (length exam_val)
    else exists img_train img_val lab_train lab_val,
           train_test_split w
             [fst (get_flatten_img_list w (meta_man a));
              snd (get_flatten_img_list w (meta_man a))]
             (val_size a) seed (snd (get_flatten_img_list w (meta_man a)))
           = [img_train; img_val; lab_train; lab_val] /\
           val_size_ d = Z.of_nat (length img_val).
Proof.
  intros H. apply run_fit_event in H as (p & Hp & H).
  apply prepare_inr in Hp as (Hseed & _ & _ & Hd & _).
  apply fit_model_events in H as (base & m' & _ & _ & [(o & l & ms & [=]) | H]).
  destruct H as (fa' & ckpt & [= _ <-] & _ & _ & _ & _ & Hn & _).
  exists (random_seed p), (data p). repeat split; try assumption.
  pose proof (split_data_shape _ _ _ _ Hd) as Hs.
  destruct (multi_view a).
  - destruct Hs as (tr & va & Hs & ->). exists tr, va. split; [exact Hs |].
    simpl. lia.
  - destruct Hs as (a1 & a2 & a3 & a4 & Hs & ->). exists a1, a2, a3, a4.
    split; [exact Hs | reflexivity].
Qed.

Lemma nb_val_samples_counts_validation_set_witness :
  exists m fa,
    In (FitGenerator m fa)
       (events (run (Sample.outside ∅ Sample.good_history)
                  (Sample.options_of (Sample.parsed true true false "resnet50" "NOSAVE")))) /\
    fit_nb_val_samples fa = 4.
Proof.
  eexists _, _.
  match goal with
  | |- In ?ev ?l /\ _ =>
      assert (Hin : In ev l) by (vm_compute; right; left; reflexivity)
  end.
  split; [exact Hin |].
  destruct (nb_val_samples_counts_validation_set _ _ _ _ Hin)
    as (seed & d & Hs & Hd & Hn & _).
  vm_compute in Hs. injection Hs as <-.
  vm_compute in Hd. injection Hd as <-.
  rewrite Hn. reflexivity.
Defined.

Lemma run_compile_event w a m o l ms :
  In (Compile m o l ms) (events (run w a)) ->
  exists p, outcome (prepare w a) = inr p /\
            In (Compile m o l ms) (events (fit_model w a p)).
Proof.
  intros H. apply run_events in H as [(g & H) | [H | (m' & h & _ & [H | [_ H]])]].
  - discriminate.
  - exact H.
  - apply training_report_prints in H. discriminate.
  - apply save_final_events in H as [H _]. discriminate.
Qed.

(** C4.  In every run that reaches compilation, the compiled model is
    [make_parallel] applied to the created model exactly when the device
    count [int(os.getenv('NUM_GPU_DEVICES', 1))] exceeds one, and is the
    created, unreplicated model otherwise; the count is one when the variable
    is not set. *)
Theorem replicated_iff_several_gpus w a m o l ms :
  In (Compile m o l ms) (events (run w a)) ->
  exists g base,
    int_getenv w "NUM_GPU_DEVICES" 1 = inr g /\
    (environ w !! "NUM_GPU_DEVICES"%string = None -> g = 1) /\
    create_model a = inr (Some base) /\
    is_replicated base = false /\
    (is_replicated m = true <-> 1 < g) /\
    (1 < g -> m = make_parallel base g) /\
    (g <= 1 -> m = base).
Proof.
  intros H. apply run_compile_event in H as (p & Hp & H).
  apply prepare_inr in Hp as (_ & _ & Hg & _).
  apply fit_model_events in H as (base & m' & Hc & Hm & [(o' & l' & ms' & [= <- _ _ _]) | H]).
  2: { destruct H as (fa & ckpt & [=] & _). }
  exists (gpu_count p), base.
  pose proof (create_model_not_replicated _ _ Hc) as Hbase.
  split; [exact Hg |]. split.
  { intros Hnone. unfold int_getenv in Hg. rewrite Hnone in Hg. congruence. }
  split; [exact Hc |]. split; [exact Hbase |].
  destruct (Z.gtb_spec (gpu_count p) 1) as [Hgt | Hle]; subst m.
  - repeat split; simpl; try reflexivity; intros; lia.
  - repeat split; try reflexivity; try lia; rewrite Hbase; try discriminate.
Qed.

Lemma replicated_iff_several_gpus_witness :
  exists m o l ms,
    In (Compile m o l ms)
       (events (run (Sample.outside {["NUM_GPU_DEVICES"%string := "2"%string]}
                       Sample.good_history) Sample.defaults)) /\
    is_replicated m = true.
Proof.
  eexists _, _, _, _.
  match goal with
  | |- In ?ev ?evs /\ _ =>
      assert (Hin : In ev evs) by (vm_compute; left; reflexivity)
  end.
  split; [exact Hin |].
  destruct (replicated_iff_several_gpus _ _ _ _ _ _ Hin)
    as (g & base & Hg & _ & _ & _ & Hiff & _).
  vm_compute in Hg. injection Hg as <-. apply Hiff. lia.
Defined.

(** C6.  In every run that reaches the training call, the [class_weight]
    keyword is a dict with exactly the keys 0 and 1, where 0 maps to [1.0]
    and 1 maps to [pos_cls_weight]. *)
Theorem class_weight_keys_and_values w a m fa :
  In (FitGenerator m fa) (events (run w a)) ->
  dom (fit_class_weight fa) = ({[0; 1]} : gset Z) /\
  fit_class_weight fa !! 0 = Some float_one /\
  fit_class_weight fa !! 1 = Some (pos_cls_weight a).
Proof.
  intros H. apply run_fit_event in H as (p & _ & H).
  apply fit_model_events in H as (base & m' & _ & _ & [(o & l & ms & [=]) | H]).
  destruct H as (fa' & ckpt & [= _ <-] & _ & _ & _ & -> & _).
  unfold class_weight. split; [| split].
  - rewrite !dom_insert_L, dom_empty_L. set_solver.
  - rewrite lookup_insert_ne by lia. apply lookup_insert_eq.
  - apply lookup_insert_eq.
Qed.

Lemma class_weight_keys_and_values_witness :
  exists m fa,
    In (FitGenerator m fa)
       (events (run (Sample.outside ∅ Sample.good_history) Sample.defaults)) /\
    dom (fit_class_weight fa) = ({[0; 1]} : gset Z) /\
    fit_class_weight fa !! 0 = Some float_one /\
    fit_class_weight fa !! 1 = Some (pos_cls_weight Sample.defaults).
Proof.
  eexists _, _.
  match goal with
  | |- In ?ev ?evs /\ _ =>
      assert (Hin : In ev evs) by (vm_compute; right; left; reflexivity)
  end.
  split; [exact Hin |].
  exact (class_weight_keys_and_values _ _ _ _ Hin).
Defined.

Lemma run_save_event w a m h :
  outcome (train w a) = inr (m, h) ->
  outcome (training_report h) = inr tt ->
  forall ev, In ev (events (save_final a m)) -> In ev (events (run w a)).
Proof.
  intros Ht Hr ev H. unfold run.
  apply in_events_bind. right. exists (m, h). split; [exact Ht |].
  apply in_events_bind. right. exists tt. split; [exact Hr |].
  apply in_events_bind. now left.
Qed.

(** C5, as amended.  In a run whose training and training report complete,
    [model.save] is called, on the compiled model and the [final_model] path,
    exactly when [final_model] is not the string NOSAVE, and on nothing else;
    and whenever the training call is reached, with or without a final save,
    its callbacks end with the AUC checkpointer made for the [best_model]
    path. *)
Theorem final_model_saved_unless_nosave w a :
  (forall m h,
     outcome (train w a) = inr (m, h) ->
     outcome (training_report h) = inr tt ->
     (In (Save m (final_model a)) (events (run w a)) <->
      final_model a <> "NOSAVE"%string) /\
     (forall m' path, In (Save m' path) (events (run w a)) ->
                      m' = m /\ path = final_model a)) /\
  (forall m fa,
     In (FitGenerator m fa) (events (run w a)) ->
     exists d bs nt,
       fit_callbacks fa =
         [ReduceLROnPlateau "val_loss" float_0_1 (lr_patience a) 1;
          EarlyStopping "val_loss" (es_patience a) 1;
          DMAucModelCheckpoint (best_model a) d bs nt]).
Proof.
  split.
  - intros m h Ht Hr.
    assert (Hsave : forall m' path, In (Save m' path) (events (run w a)) ->
                      m' = m /\ path = final_model a /\
                      final_model a <> "NOSAVE"%string).
    { intros m' path H.
      apply run_events in H as [(g & H) | [H | (m2 & h2 & Ht2 & [H | [_ H]])]].
      - discriminate.
      - destruct H as (p & _ & H).
        apply fit_model_events in H
          as (base & m3 & _ & _ & [(o & l & ms & [=]) | (fa & ckpt & [=] & _)]).
      - apply training_report_prints in H. discriminate.
      - rewrite Ht in Ht2. injection Ht2 as <- <-.
        apply save_final_events in H as [[= -> ->] Hne]. auto. }
    split.
    + split.
      * intros H. now apply Hsave in H.
      * intros Hne. apply (run_save_event w a m h Ht Hr).
        apply save_final_events. now split.
    + intros m' path H. apply Hsave in H. tauto.
  - intros m fa H. apply run_fit_event in H as (p & _ & H).
    apply fit_model_events in H as (base & m' & _ & _ & [(o & l & ms & [=]) | H]).
    destruct H as (fa' & ckpt & [= _ <-] & Hk & _ & _ & _ & _ & Hcb).
    rewrite Hcb. unfold auc_checkpointer in Hk.
    destruct (load_val_ram a).
    + apply ebind_inr in Hk as (vs & _ & [= <-]). eauto.
    + injection Hk as <-. eauto.
Qed.

Lemma final_model_saved_unless_nosave_witness :
  exists m h,
    outcome (train (Sample.outside ∅ Sample.good_history)
               (Sample.options_of (Sample.parsed true true true "resnet18" "final.h5")))
    = inr (m, h) /\
    outcome (training_report h) = inr tt /\
    In (Save m "final.h5")
       (events (run (Sample.outside ∅ Sample.good_history)
                  (Sample.options_of (Sample.parsed true true true "resnet18" "final.h5")))).
Proof.
  eexists _, _.
  match goal with
  | |- ?t = ?r /\ _ => assert (Ht : t = r) by (vm_compute; reflexivity)
  end.
  split; [exact Ht |].
  match goal with
  | |- ?t = ?r /\ _ => assert (Hr : t = r) by (vm_compute; reflexivity)
  end.
  split; [exact Hr |].
  apply (proj1 (final_model_saved_unless_nosave _ _) _ _ Ht Hr).
  vm_compute. discriminate.
Defined.

(** C5, as stated, fails on a training that diverged in its first epoch: the
    training returns, [final_model] is not NOSAVE, but the training report
    raises [IndexError] and the run ends before line 231, so that nothing is
    saved. *)
Lemma completed_training_without_final_save :
  exists m,
    outcome (train (Sample.outside ∅ Sample.nan_history)
               (Sample.options_of (Sample.parsed false true false "resnet50" "final.h5")))
    = inr (m, Sample.nan_history) /\
    final_model (Sample.options_of (Sample.parsed false true false "resnet50" "final.h5"))
    <> "NOSAVE"%string /\
    outcome (run (Sample.outside ∅ Sample.nan_history)
               (Sample.options_of (Sample.parsed false true false "resnet50" "final.h5")))
    = inl IndexError /\
    (forall m' path,
       ~ In (Save m' path)
            (events (run (Sample.outside ∅ Sample.nan_history)
                       (Sample.options_of (Sample.parsed false true false "resnet50" "final.h5"))))) /\
    ~ (In (Save m "final.h5")
          (events (run (Sample.outside ∅ Sample.nan_history)
                     (Sample.options_of (Sample.parsed false true false "resnet50" "final.h5")))) <->
       final_model (Sample.options_of (Sample.parsed false true false "resnet50" "final.h5"))
       <> "NOSAVE"%string).
Proof.
  eexists.
  split; [vm_compute; reflexivity |].
  assert (Hne : final_model (Sample.options_of (Sample.parsed false true false "resnet50" "final.h5"))
                <> "NOSAVE"%string) by (vm_compute; discriminate).
  assert (Hno : forall m' path,
             ~ In (Save m' path)
                  (events (run (Sample.outside ∅ Sample.nan_history)
                             (Sample.options_of (Sample.parsed false true false "resnet50" "final.h5"))))).
  { intros m' path H. vm_compute in H. destruct H as [H | [H | []]]; discriminate H. }
  split; [exact Hne |]. split; [vm_compute; reflexivity |]. split; [exact Hno |].
  intros [_ H]. exact (Hno _ _ (H Hne)).
Qed.

Lemma make_generators_config a img_gen d seed tg vg :
  make_generators a img_gen d seed = inr (tg, vg) ->
  gen_config tg = img_gen /\ gen_config vg = img_gen.
Proof.
  unfold make_generators. intros H.
  apply ebind_inr in H as (ts & _ & H). apply ebind_inr in H as (ts' & _ & H).
  destruct d; injection H as <- <-; now split.
Qed.

(** C8.  In every run that reaches the training call, the image generator
    behind the training generator (and behind the validation generator, when
    that is what is passed on) has, under [do_featurewise_norm], featurewise
    centering and featurewise standard-deviation normalization switched on
    and [mean] and [std] set to the arguments [featurewise_mean] and
    [featurewise_std]; otherwise it has samplewise centering and samplewise
    standard-deviation normalization switched on, while [mean], [std] and the
    featurewise switches are as the constructor left them. *)
Theorem normalization_follows_flag w a m fa :
  In (FitGenerator m fa) (events (run w a)) ->
  let img_gen := gen_config (fit_generator fa) in
  let fresh := DMImageDataGenerator w true true in
  (forall vg, fit_validation_data fa = ValGen vg -> gen_config vg = img_gen) /\
  if do_featurewise_norm a then
    featurewise_center img_gen = true /\
    featurewise_std_normalization img_gen = true /\
    mean img_gen = Some (featurewise_mean a) /\
    std img_gen = Some (featurewise_std a) /\
    samplewise_center img_gen = samplewise_center fresh /\
    samplewise_std_normalization img_gen = samplewise_std_normalization fresh
  else
    samplewise_center img_gen = true /\
    samplewise_std_normalization img_gen = true /\
    mean img_gen = mean fresh /\
    std img_gen = std fresh /\
    featurewise_center img_gen = featurewise_center fresh /\
    featurewise_std_normalization img_gen = featurewise_std_normalization fresh.
Proof.
  intros H. apply run_fit_event in H as (p & Hp & H).
  apply prepare_inr in Hp as (_ & _ & _ & _ & Hg & _).
  apply make_generators_config in Hg as [Htg Hvg].
  apply fit_model_events in H as (base & m' & _ & _ & [(o & l & ms & [=]) | H]).
  destruct H as (fa' & ckpt & [= _ <-] & _ & Hv & Hgen & _).
  simpl. rewrite Hgen, Htg. split.
  - intros vg Hvd. rewrite Hvd in Hv. unfold validation_data in Hv.
    destruct (load_val_ram a).
    + apply ebind_inr in Hv as (vs & _ & [=]).
    + injection Hv as <-. exact Hvg.
  - unfold set_normalization. destruct (do_featurewise_norm a); simpl; auto 10.
Qed.

Lemma normalization_follows_flag_witness :
  exists m fa,
    In (FitGenerator m fa)
       (events (run (Sample.outside ∅ Sample.good_history)
                  (Sample.options_of (Sample.parsed false false false "resnet50" "NOSAVE")))) /\
    samplewise_center (gen_config (fit_generator fa)) = true /\
    mean (gen_config (fit_generator fa)) = None.
Proof.
  eexists _, _.
  match goal with
  | |- In ?ev ?evs /\ _ =>
      assert (Hin : In ev evs) by (vm_compute; right; left; reflexivity)
  end.
  split; [exact Hin |].
  destruct (normalization_follows_flag _ _ _ _ Hin) as [_ H].
  change (do_featurewise_norm _) with false in H.
  destruct H as (H1 & _ & H3 & _). split; [exact H1 | exact H3].
Defined.

Lemma select_architecture_recognized name :
  (exists arch, select_architecture name = Some arch) <-> In name recognized_nets.
Proof.
  unfold select_architecture, recognized_nets.
  repeat match goal with
         | |- context [String.eqb name ?s] =>
             destruct (String.eqb_spec name s) as [-> | ?];
             [split; [intros _; simpl; tauto | intros _; eauto] |]
         end.
  split; [intros [arch [=]] | intros H; exfalso; simpl in H; intuition congruence].
Qed.

Lemma fit_model_unassigned w a p :
  create_model a = inr None -> fit_model w a p = ([], inl UnboundLocalError).
Proof.
  intros H. unfold fit_model. rewrite bind_lift, H, bind_lift.
  unfold replicate. now destruct (gpu_count p >? 1).
Qed.

(** C9.  Without [resume_from], a model is created only for one of the nine
    recognized names (and one of the builder methods is chosen exactly for
    them); for any other [net] the variable [model] stays unassigned, nothing
    is ever compiled, the run ends in an exception, and that exception is the
    failing read of [model] as soon as the run gets as far as creating the
    model. *)
Theorem unknown_net_leaves_model_unassigned w a :
  resume_from a = None ->
  ((exists arch, select_architecture (net a) = Some arch) <->
   In (net a) recognized_nets) /\
  (forall m, create_model a = inr (Some m) -> In (net a) recognized_nets) /\
  (~ In (net a) recognized_nets ->
   create_model a = inr None /\
   (forall m o l ms, ~ In (Compile m o l ms) (events (run w a))) /\
   (exists e, outcome (run w a) = inl e) /\
   (forall p, outcome (prepare w a) = inr p ->
              outcome (run w a) = inl UnboundLocalError)).
Proof.
  intros Hres. split; [apply select_architecture_recognized |]. split.
  - unfold create_model. rewrite Hres. intros m H.
    apply select_architecture_recognized.
    destruct (select_architecture (net a)); [eauto | discriminate].
  - intros Hnot.
    assert (Hnone : create_model a = inr None).
    { unfold create_model. rewrite Hres.
      destruct (select_architecture (net a)) eqn:E; [| reflexivity].
      exfalso. apply Hnot. apply select_architecture_recognized. eauto. }
    assert (Hrun : forall p, outcome (prepare w a) = inr p ->
                             outcome (run w a) = inl UnboundLocalError).
    { intros p Hp. unfold run, train. rewrite !outcome_bind, Hp.
      now rewrite (fit_model_unassigned w a p Hnone). }
    split; [exact Hnone |]. split; [| split; [| exact Hrun]].
    + intros m o l ms H. apply run_compile_event in H as (p & _ & H).
      apply fit_model_events in H as (base & _ & Hc & _). congruence.
    + destruct (outcome (prepare w a)) as [e | p] eqn:Hp; [| eauto].
      exists e. unfold run, train. now rewrite !outcome_bind, Hp.
Qed.

Lemma unknown_net_leaves_model_unassigned_witness :
  outcome (run (Sample.outside ∅ Sample.good_history)
             (Sample.options_of (Sample.parsed false true false "vgg16" "NOSAVE")))
  = inl UnboundLocalError.
Proof.
  eapply (unknown_net_leaves_model_unassigned
            (Sample.outside ∅ Sample.good_history)
            (Sample.options_of (Sample.parsed false true false "vgg16" "NOSAVE"))).
  - reflexivity.
  - vm_compute. intuition discriminate.
  - vm_compute. reflexivity.
Defined.

(** ** The order of floats *)

Lemma key_compare_spec a b :
  match key_compare a b with
  | Lt => key_lt a b
  | Eq => a = b
  | Gt => key_lt b a
  end.
Proof.
  destruct a as [[a1 a2] a3], b as [[b1 b2] b3]. unfold key_compare, key_lt.
  destruct (Z.compare_spec a1 b1); [| lia | lia].
  destruct (Z.compare_spec a2 b2); [| lia | lia].
  destruct (Z.compare_spec a3 b3); [congruence | lia | lia].
Qed.

Lemma key_lt_irrefl a : ~ key_lt a a.
Proof. destruct a as [[a1 a2] a3]. unfold key_lt. lia. Qed.

Lemma key_lt_trans a b c : key_lt a b -> key_lt b c -> key_lt a c.
Proof.
  destruct a as [[a1 a2] a3], b as [[b1 b2] b3], c as [[c1 c2] c3].
  unfold key_lt. lia.
Qed.

Lemma key_lt_total a b : key_lt a b \/ a = b \/ key_lt b a.
Proof.
  pose proof (key_compare_spec a b) as H. destruct (key_compare a b); auto.
Qed.

Lemma SFcompare_key x y :
  SFcompare x y =
  match order_key x, order_key y with
  | Some a, Some b => Some (key_compare a b)
  | _, _ => None
  end.
Proof.
  destruct x as [sx | sx | | sx mx ex], y as [sy | sy | | sy my ey];
    try destruct sx; try destruct sy; try reflexivity; simpl.
  - rewrite (Z.compare_opp ex ey), (Z.compare_antisym ex ey).
    destruct (ex ?= ey); reflexivity.
Qed.

Lemma order_key_nan x : order_key x = None <-> is_nan x = true.
Proof. destruct x as [s | s | | s m e]; try destruct s; simpl; split; congruence. Qed.

Lemma SFltb_key x y :
  SFltb x y = true <->
  exists a b, order_key x = Some a /\ order_key y = Some b /\ key_lt a b.
Proof.
  unfold SFltb. rewrite SFcompare_key.
  destruct (order_key x) as [a |], (order_key y) as [b |];
    try (split; [discriminate | intros (? & ? & ? & ? & _); discriminate]).
  pose proof (key_compare_spec a b) as H.
  destruct (key_compare a b); split; try discriminate; eauto.
  - subst. intros (? & ? & [= <-] & [= <-] & H). now apply key_lt_irrefl in H.
  - intros (? & ? & [= <-] & [= <-] & H').
    exfalso. exact (key_lt_irrefl _ (key_lt_trans _ _ _ H H')).
Qed.

Lemma SFeqb_key x y :
  SFeqb x y = true <-> exists a, order_key x = Some a /\ order_key y = Some a.
Proof.
  unfold SFeqb. rewrite SFcompare_key.
  destruct (order_key x) as [a |], (order_key y) as [b |];
    try (split; [discriminate | intros (? & ? & ?); discriminate]).
  pose proof (key_compare_spec a b) as H.
  destruct (key_compare a b); split; try discriminate; subst; eauto;
    intros (? & [= <-] & [= <-]); now apply key_lt_irrefl in H.
Qed.

Lemma SFltb_irrefl x : SFltb x x = false.
Proof.
  destruct (SFltb x x) eqn:E; [| reflexivity].
  apply SFltb_key in E as (a & b & Ha & Hb & H).
  rewrite Ha in Hb. injection Hb as <-. now apply key_lt_irrefl in H.
Qed.

Lemma SFltb_trans x y z : SFltb x y = true -> SFltb y z = true -> SFltb x z = true.
Proof.
  rewrite !SFltb_key. intros (a & b & Ha & Hb & H1) (b' & c & Hb' & Hc & H2).
  rewrite Hb in Hb'. injection Hb' as <-.
  exists a, c. eauto using key_lt_trans.
Qed.

Lemma SFltb_not_nan x y : SFltb x y = true -> is_nan x = false /\ is_nan y = false.
Proof.
  intros (a & b & Ha & Hb & _)%SFltb_key.
  destruct x, y; try discriminate; now split.
Qed.

Lemma SFeqb_refl x : is_nan x = false -> SFeqb x x = true.
Proof.
  intros H. apply SFeqb_key. destruct (order_key x) as [a |] eqn:E; [eauto |].
  apply order_key_nan in E. congruence.
Qed.

Lemma SFeqb_not_nan x y : SFeqb x y = true -> is_nan x = false /\ is_nan y = false.
Proof.
  intros (a & Ha & Hb)%SFeqb_key. destruct x, y; try discriminate; now split.
Qed.

(** Equal floats compare alike with every third one. *)
Lemma SFeqb_SFltb_r x y z : SFeqb x y = true -> SFltb z x = SFltb z y.
Proof.
  intros (a & Ha & Hb)%SFeqb_key. unfold SFltb. now rewrite !SFcompare_key, Ha, Hb.
Qed.

Lemma SFeqb_SFltb_l x y z : SFeqb x y = true -> SFltb x z = SFltb y z.
Proof.
  intros (a & Ha & Hb)%SFeqb_key. unfold SFltb. now rewrite !SFcompare_key, Ha, Hb.
Qed.

(** Two numbers are equal or one is below the other. *)
Lemma SFltb_total x y :
  is_nan x = false -> is_nan y = false ->
  SFltb x y = true \/ SFeqb x y = true \/ SFltb y x = true.
Proof.
  intros Hx Hy.
  destruct (order_key x) as [a |] eqn:Ea;
    [| apply order_key_nan in Ea; congruence].
  destruct (order_key y) as [b |] eqn:Eb;
    [| apply order_key_nan in Eb; congruence].
  destruct (key_lt_total a b) as [H | [-> | H]].
  - left. apply SFltb_key. eauto.
  - right. left. apply SFeqb_key. eauto.
  - right. right. apply SFltb_key. eauto.
Qed.

Lemma train_events_not_printed w a ev :
  In ev (events (train w a)) -> is_print ev = false.
Proof.
  unfold train. rewrite in_events_bind. intros [H | (p & _ & H)].
  - apply prepare_events in H as [g ->]. reflexivity.
  - apply fit_model_events in H
      as (base & m & _ & _ & [(o & l & ms & ->) | (fa & ckpt & -> & _)]);
      reflexivity.
Qed.

Lemma filter_none {A} (f : A -> bool) l :
  (forall x, In x l -> f x = false) -> List.filter f l = [].
Proof.
  induction l as [| x l IH]; simpl; intros H; [reflexivity |].
  rewrite (H x) by now left. apply IH. intros y Hy. apply H. now right.
Qed.

Lemma filter_all {A} (f : A -> bool) l :
  (forall x, In x l -> f x = true) -> List.filter f l = l.
Proof.
  induction l as [| x l IH]; simpl; intros H; [reflexivity |].
  rewrite (H x) by now left. f_equal. apply IH. intros y Hy. apply H. now right.
Qed.

(** What a run prints after a completed training is the training report. *)
Lemma run_printed w a m h :
  outcome (train w a) = inr (m, h) ->
  printed (events (run w a)) = events (training_report h).
Proof.
  intros Ht. unfold run, printed. rewrite events_bind, Ht.
  rewrite events_bind. rewrite !List.filter_app.
  rewrite (filter_none _ (events (train w a))) by apply train_events_not_printed.
  rewrite (filter_all _ (events (training_report h)))
    by apply training_report_prints.
  rewrite filter_none; [now rewrite app_nil_r |].
  intros ev H. destruct (outcome (training_report h)) as [e | []]; [contradiction |].
  rewrite events_bind, in_app_iff in H. destruct H as [H | H].
  - apply save_final_events in H as [-> _]. reflexivity.
  - destruct (outcome (save_final a m)); contradiction.
Qed.

(** ** The minimum and where it is first attained *)

Lemma fold_min_spec r m0 :
  let m := fold_left (fun m item => if SFltb item m then item else m) r m0 in
  (m = m0 \/ SFltb m m0 = true) /\
  (forall y, In y r -> SFltb y m = false) /\
  In m (m0 :: r).
Proof.
  revert m0. induction r as [| item r IH]; intros m0; simpl.
  - split; [now left |]. split; [intros y [] | now left].
  - destruct (SFltb item m0) eqn:E.
    + destruct (IH item) as (Hle & Hall & Hin). split; [| split].
      * right. destruct Hle as [-> | Hlt]; [exact E |].
        exact (SFltb_trans _ _ _ Hlt E).
      * intros y [<- | Hy]; [| now apply Hall].
        destruct Hle as [-> | Hlt]; [apply SFltb_irrefl |].
        match goal with |- SFltb ?u ?v = false => destruct (SFltb u v) eqn:E' end;
          [| reflexivity].
        pose proof (SFltb_trans _ _ _ E' Hlt) as Habs.
        now rewrite SFltb_irrefl in Habs.
      * right. exact Hin.
    + destruct (IH m0) as (Hle & Hall & Hin). split; [exact Hle |]. split.
      * intros y [<- | Hy]; [| now apply Hall].
        destruct Hle as [-> | Hlt]; [exact E |].
        match goal with |- SFltb ?u ?v = false => destruct (SFltb u v) eqn:E' end;
          [| reflexivity].
        pose proof (SFltb_trans _ _ _ E' Hlt) as Habs. congruence.
      * destruct Hin as [<- | Hin]; [now left | right; now right].
Qed.

(** [min] of a list that starts with a number: a number of the list that no
    entry is below. *)
Lemma py_min_spec x0 r :
  is_nan x0 = false ->
  exists m, py_min (x0 :: r) = inr m /\
            is_nan m = false /\
            In m (x0 :: r) /\
            forall y, In y (x0 :: r) -> SFltb y m = false.
Proof.
  intros Hx. destruct (fold_min_spec r x0) as (Hle & Hall & Hin).
  eexists. split; [reflexivity |]. split; [| split; [exact Hin |]].
  - destruct Hle as [-> | Hlt]; [exact Hx |]. now apply SFltb_not_nan in Hlt.
  - intros y [<- | Hy]; [| now apply Hall].
    destruct Hle as [-> | Hlt]; [apply SFltb_irrefl |].
    match goal with |- SFltb ?u ?v = false => destruct (SFltb u v) eqn:E' end;
      [| reflexivity].
    pose proof (SFltb_trans _ _ _ E' Hlt) as Habs.
    now rewrite SFltb_irrefl in Habs.
Qed.

(** [min] of a list that starts with NaN is NaN. *)
Lemma py_min_nan r : py_min (S754_nan :: r) = inr S754_nan.
Proof.
  unfold py_min. f_equal. induction r as [| item r IH]; simpl; [reflexivity |].
  replace (SFltb item S754_nan) with false by now destruct item. exact IH.
Qed.

Lemma where_from_first k mask :
  match where_from k mask with
  | [] => forall j, nth_error mask j <> Some true
  | i :: _ => exists j, i = (k + j)%nat /\ nth_error mask j = Some true /\
                        forall j', (j' < j)%nat -> nth_error mask j' = Some false
  end.
Proof.
  revert k. induction mask as [| b mask IH]; intros k; simpl.
  - intros [| j]; discriminate.
  - destruct b.
    + exists 0%nat. split; [lia |]. split; [reflexivity | intros j' Hj'; lia].
    + specialize (IH (S k)). destruct (where_from (S k) mask) as [| i rest].
      * intros [| j]; [discriminate | apply IH].
      * destruct IH as (j & -> & Hj & Hbefore). exists (S j).
        split; [lia |]. split; [exact Hj |].
        intros [| j'] Hj'; [reflexivity | apply Hbefore; lia].
Qed.

Lemma nth_error_np_eq l m j :
  nth_error (np_eq l m) j = option_map (fun x => SFeqb x m) (nth_error l j).
Proof. unfold np_eq. apply nth_error_map. Qed.

(** The first location [np.where] returns for [l == min(l)] is the first
    minimum of [l], when [l] starts with a number. *)
Lemma first_location_is_first_minimum x0 r :
  is_nan x0 = false ->
  exists m i x,
    py_min (x0 :: r) = inr m /\
    list_get (np_where (np_eq (x0 :: r) m)) 0 = inr i /\
    first_minimum (x0 :: r) i x.
Proof.
  intros Hx. destruct (py_min_spec x0 r Hx) as (m & Hmin & Hm & Hin & Hlow).
  exists m. pose proof (where_from_first 0 (np_eq (x0 :: r) m)) as Hw.
  unfold np_where, list_get.
  destruct (where_from 0 (np_eq (x0 :: r) m)) as [| i rest].
  - exfalso. apply In_nth_error in Hin as [j Hj]. apply (Hw j).
    rewrite nth_error_np_eq, Hj. simpl. now rewrite SFeqb_refl.
  - destruct Hw as (j & Hij & Hj & Hbefore). rewrite Nat.add_0_l in Hij. subst i.
    rewrite nth_error_np_eq in Hj.
    destruct (nth_error (x0 :: r) j) as [x |] eqn:Ex; [| discriminate].
    injection Hj as Heq. exists j, x. split; [exact Hmin |].
    split; [reflexivity |]. split; [exact Ex |]. split; [| split].
    + now apply SFeqb_not_nan in Heq.
    + intros j' y Hy. rewrite (SFeqb_SFltb_r _ _ y Heq).
      apply Hlow. eapply nth_error_In, Hy.
    + intros j' y Hlt Hy. specialize (Hbefore j' Hlt).
      rewrite nth_error_np_eq, Hy in Hbefore. injection Hbefore as Hne.
      destruct (is_nan y) eqn:Ey; [now left | right].
      rewrite (SFeqb_SFltb_l _ _ y Heq).
      destruct (SFltb_total m y Hm Ey) as [H | [H | H]]; [exact H | |].
      * exfalso. apply SFeqb_key in H as (a & Ha & Hb).
        assert (SFeqb y m = true) by (apply SFeqb_key; eauto). congruence.
      * rewrite (Hlow y) in H; [discriminate | eapply nth_error_In, Hy].
Qed.

(** There is one first minimum at most. *)
Lemma first_minimum_unique l i x i' x' :
  first_minimum l i x -> first_minimum l i' x' -> i = i' /\ x = x'.
Proof.
  intros (Hi & Hx & Hlow & Hbefore) (Hi' & Hx' & Hlow' & Hbefore').
  assert (i = i') as <-.
  { destruct (Nat.lt_trichotomy i i') as [Hlt | [Heq | Hgt]]; [| exact Heq |]; exfalso.
    - destruct (Hbefore' i x Hlt Hi) as [H | H]; [congruence |].
      rewrite (Hlow i' x' Hi') in H. discriminate.
    - destruct (Hbefore i' x' Hgt Hi') as [H | H]; [congruence |].
      rewrite (Hlow' i x Hi) in H. discriminate. }
  split; [reflexivity | congruence].
Qed.

Lemma nth_error_within {A} (l : list A) i :
  (i < length l)%nat -> exists x, nth_error l i = Some x.
Proof.
  intros H. destruct (nth_error l i) eqn:E; [eauto |].
  apply nth_error_None in E. lia.
Qed.

(** C3, as amended.  For a history whose validation loss is non-empty and
    does not start with NaN, and whose sensitivity and specificity have one
    value per epoch as well, the training report is printed and shows, as
    best epoch, one plus the first index at which the validation loss attains
    its minimum, and the loss, sensitivity and specificity recorded at that
    index; the lines a run prints after such a training are this report. *)
Theorem report_shows_first_minimum h x0 r vs vp :
  h !! "val_loss"%string = Some (x0 :: r) ->
  is_nan x0 = false ->
  h !! "val_sensitivity"%string = Some vs ->
  h !! "val_specificity"%string = Some vp ->
  length vs = length (x0 :: r) ->
  length vp = length (x0 :: r) ->
  reports_first_minimum h /\
  outcome (training_report h) = inr tt /\
  forall w a m, outcome (train w a) = inr (m, h) ->
                printed (events (run w a)) = events (training_report h).
Proof.
  intros Hl Hx Hs Hp Hls Hlp.
  destruct (first_location_is_first_minimum x0 r Hx) as (m & i & x & Hmin & Hloc & Hfm).
  pose proof Hfm as (Hi & _).
  assert (Hlt : (i < length (x0 :: r))%nat) by (apply nth_error_Some; congruence).
  destruct (nth_error_within vs i) as [se Hse]; [lia |].
  destruct (nth_error_within vp i) as [sp Hsp]; [lia |].
  assert (Hrep : training_report h = (summary_lines (Z.of_nat i + 1) x se sp, inr tt)).
  { unfold training_report, dict_get. rewrite Hl, Hs, Hp.
    rewrite bind_lift. rewrite bind_lift, Hmin. rewrite bind_lift, Hloc.
    unfold list_get. rewrite bind_lift, Hi. rewrite bind_lift. rewrite bind_lift, Hse.
    rewrite bind_lift. rewrite bind_lift, Hsp. reflexivity. }
  split; [| split].
  - exists (x0 :: r), vs, vp, i, x, se, sp. rewrite Hrep. auto 10.
  - now rewrite Hrep.
  - intros w a m' Ht. exact (run_printed w a m' h Ht).
Qed.

Lemma np_eq_nan l : np_where (np_eq l S754_nan) = [].
Proof.
  unfold np_where. generalize 0%nat. induction l as [| x l IH]; intros k; simpl;
    [reflexivity |].
  replace (SFeqb x S754_nan) with false by now destruct x. apply IH.
Qed.

(** A loss history that starts with NaN stops the report before it prints:
    the minimum is NaN and no entry equals NaN. *)
Lemma report_fails_on_nan_first (h : history) r :
  h !! "val_loss"%string = Some (S754_nan :: r) ->
  training_report h = ([], inl IndexError).
Proof.
  intros Hl. unfold training_report, dict_get. rewrite Hl.
  rewrite bind_lift. rewrite bind_lift, py_min_nan.
  rewrite bind_lift, np_eq_nan. reflexivity.
Qed.

(** Whenever the report is printed, it shows the first minimum. *)
Lemma printed_report_is_first_minimum (h : history) :
  outcome (training_report h) = inr tt -> reports_first_minimum h.
Proof.
  unfold reports_first_minimum, training_report, dict_get.
  destruct (h !! "val_loss"%string) as [vl |]; rewrite bind_lift; [| discriminate].
  rewrite bind_lift.
  destruct vl as [| x0 r]; [discriminate |].
  destruct (is_nan x0) eqn:Hx.
  { destruct x0; try discriminate.
    rewrite py_min_nan, bind_lift, np_eq_nan. discriminate. }
  destruct (first_location_is_first_minimum x0 r Hx) as (m & i & x & -> & Hloc & Hfm).
  rewrite bind_lift, Hloc. pose proof Hfm as (Hi & _).
  unfold list_get. rewrite bind_lift, Hi.
  destruct (h !! "val_sensitivity"%string) as [vs |]; rewrite bind_lift; [| discriminate].
  rewrite bind_lift.
  destruct (nth_error vs i) as [se |] eqn:Hse; [| discriminate].
  destruct (h !! "val_specificity"%string) as [vp |]; rewrite bind_lift; [| discriminate].
  rewrite bind_lift.
  destruct (nth_error vp i) as [sp |] eqn:Hsp; [| discriminate].
  intros _. exists (x0 :: r), vs, vp, i, x, se, sp. auto 10.
Qed.

(** The float constants of the script are binary64 numbers. *)
Lemma constants_are_binary64 :
  Forall (fun x => valid_binary 53 1024 x = true)
         [float_one; float_0_1; float_0_9; float_zero].
Proof. repeat constructor. Qed.

Lemma report_shows_first_minimum_witness :
  reports_first_minimum Sample.good_history /\
  events (training_report Sample.good_history) =
    summary_lines 2 (Sample.f64 1 (-1)) (Sample.f64 1 (-1)) (Sample.f64 7 (-3)).
Proof.
  split; [| vm_compute; reflexivity].
  refine (proj1 (report_shows_first_minimum Sample.good_history
                   (Sample.f64 3 (-2)) [Sample.f64 1 (-1); Sample.f64 1 (-1)]
                   [Sample.f64 1 (-2); Sample.f64 1 (-1); Sample.f64 3 (-2)]
                   [Sample.f64 3 (-2); Sample.f64 7 (-3); Sample.f64 1 (-1)]
                   _ _ _ _ _ _));
    vm_compute; reflexivity.
Defined.

(** C3, as stated, fails on a history that starts with NaN: the loss history
    is not empty, but [min] returns NaN, no entry equals it, and the run ends
    in an [IndexError] with nothing printed. *)
Lemma nan_first_loss_prints_no_report :
  Sample.nan_history !! "val_loss"%string = Some [Sample.nan; Sample.f64 1 (-1)] /\
  ~ reports_first_minimum Sample.nan_history /\
  outcome (run (Sample.outside ∅ Sample.nan_history) Sample.defaults) = inl IndexError /\
  printed (events (run (Sample.outside ∅ Sample.nan_history) Sample.defaults)) = [].
Proof.
  split; [vm_compute; reflexivity |]. split; [| split; vm_compute; reflexivity].
  intros (vl & vs & vp & i & x & se & sp & _ & _ & _ & _ & _ & _ & H).
  vm_compute in H. discriminate.
Qed.

(** ** The command line *)

Lemma SFleb_not_above x y : SFleb x y = true -> SFltb y x = false.
Proof.
  unfold SFleb, SFltb. rewrite !SFcompare_key.
  destruct (order_key x) as [a |], (order_key y) as [b |]; try discriminate.
  pose proof (key_compare_spec a b) as H1. pose proof (key_compare_spec b a) as H2.
  destruct (key_compare a b), (key_compare b a);
    try discriminate; try reflexivity; intros _; exfalso.
  - subst. now apply key_lt_irrefl in H2.
  - exact (key_lt_irrefl _ (key_lt_trans _ _ _ H1 H2)).
Qed.

Lemma py_int_of_float_truncates s m e :
  exists z, py_int_of_float (S754_finite s m e) = inr z /\
            is_truncation (S754_finite s m e) z.
Proof.
  eexists. split; [reflexivity |]. unfold is_truncation.
  destruct (Z.leb_spec 0 e) as [He | He].
  - assert (0 < Z.pos m * 2 ^ e) by (apply Z.mul_pos_pos; [lia | now apply Z.pow_pos_nonneg]).
    destruct s; split; lia.
  - assert (Hp : 0 < 2 ^ (- e)) by (apply Z.pow_pos_nonneg; lia).
    pose proof (Z.div_pos (Z.pos m) (2 ^ (- e)) ltac:(lia) Hp) as Hq.
    pose proof (Z.mul_div_le (Z.pos m) (2 ^ (- e)) Hp) as Hlo.
    pose proof (Z.mul_succ_div_gt (Z.pos m) (2 ^ (- e)) Hp) as Hhi.
    destruct s.
    + split; [lia |]. rewrite Z.abs_opp, Z.abs_eq by lia. lia.
    + split; [lia |]. rewrite Z.abs_eq by lia. lia.
Qed.

(** C10, as amended.  A parsed [val_size] below one is forwarded to [run] as
    the float it is; a finite [val_size] of one or more is forwarded as the
    int it truncates to, so [1.0] becomes the int [1]; what is forwarded is
    the [val_size] that [run] receives from [main]. *)
Theorem val_size_forwarded_as_fraction_or_count (args : namespace) :
  val_size args <> S754_infinity false ->
  forwards_fraction_or_count (val_size args) /\
  forwarded_val_size float_one = inr (PyInt 1) /\
  (forall w r, forwarded_val_size (val_size args) = inr r ->
     exists opts, run_opts args = inr opts /\ val_size opts = r /\
                  main w args = bind (emit (PrintOptions opts)) (fun _ => run w opts)).
Proof.
  intros Hfin. split; [| split; [reflexivity |]].
  - unfold forwards_fraction_or_count, forwarded_val_size. split.
    + now intros ->.
    + intros Hle. rewrite (SFleb_not_above _ _ Hle).
      destruct (val_size args) as [s | s | | s m e].
      * discriminate.
      * destruct s; [discriminate | congruence].
      * discriminate.
      * destruct (py_int_of_float_truncates s m e) as (z & -> & Hz). eauto.
  - intros w r Hr. unfold main, run_opts. rewrite Hr. simpl.
    eexists. split; [reflexivity |]. split; [reflexivity |].
    match goal with |- context [run w ?o] => destruct (run w o) end. reflexivity.
Qed.

Lemma val_size_forwarded_as_fraction_or_count_witness :
  val_size (Sample.options_of
              (Sample.parsed_sized (Sample.f64 5 (-1)) false true false "resnet50" "NOSAVE"))
  = PyInt 2 /\
  forwarded_val_size (val_size Sample.parsed_defaults)
  = inr (PyFloat (val_size Sample.parsed_defaults)).
Proof.
  split.
  - destruct (val_size_forwarded_as_fraction_or_count
                (Sample.parsed_sized (Sample.f64 5 (-1)) false true false "resnet50" "NOSAVE"))
      as (_ & _ & H); [vm_compute; discriminate |].
    destruct (H (Sample.outside ∅ Sample.good_history) (PyInt 2)) as (opts & Ho & Hv & _);
      [vm_compute; reflexivity |].
    unfold Sample.options_of. rewrite Ho. exact Hv.
  - refine (proj1 (proj1 (val_size_forwarded_as_fraction_or_count
                            Sample.parsed_defaults _)) _).
    + vm_compute. discriminate.
    + vm_compute. reflexivity.
Defined.

(** C10, as stated, fails at [--val-size inf]: positive infinity is not below
    one, [int] raises [OverflowError] on it, and nothing is forwarded. *)
Lemma infinite_val_size_is_not_forwarded :
  SFleb float_one (S754_infinity false) = true /\
  forwarded_val_size (S754_infinity false) = inl OverflowError /\
  ~ forwards_fraction_or_count (S754_infinity false).
Proof.
  split; [reflexivity |]. split; [reflexivity |].
  intros [_ H]. destruct (H eq_refl) as (z & Hz & _). discriminate.
Qed.

(** ** The size check on the preloaded validation set *)

(** In multi-view mode the check passes exactly for a batch whose left and
    right arrays both hold [val_size_] images. *)
Lemma check_multi_view_passes vs n :
  check_validation_set true vs n = inr tt <-> batch_matches true vs n.
Proof.
  unfold check_validation_set, batch_matches, len_item0_item_differs. simpl.
  split.
  - destruct (py_getitem vs 0) as [e | x] eqn:Hx; simpl; [discriminate |].
    destruct (py_getitem x 0) as [e | l] eqn:Hl; simpl; [discriminate |].
    destruct (py_len l) as [e | kl] eqn:Hkl; simpl; [discriminate |].
    destruct (Z.eqb_spec kl n) as [-> | Hne]; simpl; [| discriminate].
    destruct (py_getitem x 1) as [e | r] eqn:Hr; simpl; [discriminate |].
    destruct (py_len r) as [e | kr] eqn:Hkr; simpl; [discriminate |].
    destruct (Z.eqb_spec kr n) as [-> | Hne]; simpl; [| discriminate].
    intros _. eauto 10.
  - intros (x & Hx & l & r & Hl & Hr & Hkl & Hkr).
    rewrite Hx. simpl. rewrite Hl, Hr. simpl. rewrite Hkl, Hkr. simpl.
    now rewrite Z.eqb_refl.
Qed.

(** In multi-view mode a batch with a left and a right array that does not
    match raises the bare [Exception]. *)
Lemma check_multi_view_raises vs n x l r kl kr :
  py_getitem vs 0 = inr x -> py_getitem x 0 = inr l -> py_getitem x 1 = inr r ->
  py_len l = inr kl -> py_len r = inr kr ->
  (check_validation_set true vs n = inl Exception <-> ~ (kl = n /\ kr = n)).
Proof.
  intros Hx Hl Hr Hkl Hkr.
  unfold check_validation_set, len_item0_item_differs. simpl.
  rewrite Hx. simpl. rewrite Hl, Hr. simpl. rewrite Hkl, Hkr. simpl.
  destruct (Z.eqb_spec kl n), (Z.eqb_spec kr n); simpl;
    split; try discriminate; try reflexivity; intros; try tauto; lia.
Qed.

(** In single-view mode a batch of the wrong size raises the bare
    [Exception]. *)
Lemma check_single_view_raises vs n x k :
  py_getitem vs 0 = inr x -> py_len x = inr k -> k <> n ->
  check_validation_set false vs n = inl Exception.
Proof.
  intros Hx Hk Hne. unfold check_validation_set, len_item0_differs. simpl.
  rewrite Hx. simpl. rewrite Hk. simpl.
  destruct (Z.eqb_spec k n); [contradiction | reflexivity].
Qed.

(** In single-view mode the check goes on to the [elif] when the size is
    right, and passes only if the first two images themselves have length
    [val_size_]. *)
Lemma check_single_view_passes_only_if vs n :
  check_validation_set false vs n = inr tt ->
  exists x img0 img1,
    py_getitem vs 0 = inr x /\ py_len x = inr n /\
    py_getitem x 0 = inr img0 /\ py_len img0 = inr n /\
    py_getitem x 1 = inr img1 /\ py_len img1 = inr n.
Proof.
  unfold check_validation_set, len_item0_differs, len_item0_item_differs. simpl.
  destruct (py_getitem vs 0) as [e | x] eqn:Hx; simpl; [discriminate |].
  destruct (py_len x) as [e | k] eqn:Hk; simpl; [discriminate |].
  destruct (Z.eqb_spec k n) as [-> | ?]; simpl; [| discriminate].
  destruct (py_getitem x 0) as [e | img0] eqn:H0; simpl; [discriminate |].
  destruct (py_len img0) as [e | k0] eqn:Hk0; simpl; [discriminate |].
  destruct (Z.eqb_spec k0 n) as [-> | ?]; simpl; [| discriminate].
  destruct (py_getitem x 1) as [e | img1] eqn:H1; simpl; [discriminate |].
  destruct (py_len img1) as [e | k1] eqn:Hk1; simpl; [discriminate |].
  destruct (Z.eqb_spec k1 n) as [-> | ?]; simpl; [| discriminate].
  intros _. eauto 10.
Qed.

(** C1 at a failing input.  Single view, validation set loaded into RAM: the
    split leaves two validation images and the preloaded batch holds exactly
    these two, so it matches [val_size_]; the check still raises the bare
    [Exception], because the [elif] measures the first image, whose length is
    its one channel; the run stops there, before any model is created. *)
Theorem matching_single_view_batch_raises :
  let w := Sample.outside ∅ Sample.good_history in
  let a := Sample.options_of (Sample.parsed false true true "resnet50" "NOSAVE") in
  exists d tg vg,
    multi_view a = false /\ load_val_ram a = true /\
    split_data w a 12345 = inr d /\ val_size_ d = 2 /\
    make_generators a (set_normalization a (DMImageDataGenerator w true true)) d 12345
    = inr (tg, vg) /\
    batch_matches false (next_batch w vg) (val_size_ d) /\
    check_validation_set false (next_batch w vg) (val_size_ d) = inl Exception /\
    events (run w a) = [Next vg] /\
    outcome (run w a) = inl Exception.
Proof.
  intros w a. eexists _, _, _.
  split; [reflexivity |]. split; [reflexivity |].
  split; [vm_compute; reflexivity |]. split; [reflexivity |].
  split; [vm_compute; reflexivity |]. split.
  - eexists. split; [reflexivity |]. reflexivity.
  - split; [vm_compute; reflexivity |]. split; vm_compute; reflexivity.
Qed.

(** * Further properties of [run] and of the command line *)

(** ** Stage lemmas *)

Lemma int_getenv_failure w name default e :
  int_getenv w name default = inl e -> e = ValueError.
Proof.
  unfold int_getenv. destruct (environ w !! name); [| discriminate].
  destruct (int_of_str w _); [discriminate | now intros [= <-]].
Qed.

Lemma int_getenv_malformed w name default s :
  environ w !! name = Some s -> int_of_str w s = None ->
  int_getenv w name default = inl ValueError.
Proof. intros H1 H2. unfold int_getenv. now rewrite H1, H2. Qed.

Lemma int_getenv_unset w name default :
  environ w !! name = None -> int_getenv w name default = inr default.
Proof. intros H. unfold int_getenv. now rewrite H. Qed.

Lemma make_generators_inr a img_gen d seed tg vg :
  make_generators a img_gen d seed = inr (tg, vg) ->
  exists h wd,
    nth_error (img_size a) 0 = Some h /\ nth_error (img_size a) 1 = Some wd /\
    gen_config tg = img_gen /\ gen_config vg = img_gen /\
    gen_args tg =
      {| flow_target_size := (h, wd); flow_target_scale := img_scale a;
         flow_batch_size := batch_size a;
         flow_balance_classes := Some (balance_classes a);
         flow_all_neg_skip := Some (all_neg_skip a);
         flow_shuffle := Some true; flow_seed := Some seed;
         flow_validation_mode := None; flow_class_mode := "binary" |} /\
    gen_args vg =
      {| flow_target_size := (h, wd); flow_target_scale := img_scale a;
         flow_batch_size := if load_val_ram a then val_size_ d else batch_size a;
         flow_balance_classes := None; flow_all_neg_skip := None;
         flow_shuffle := None; flow_seed := None;
         flow_validation_mode := Some true; flow_class_mode := "binary" |} /\
    match d with
    | ExamSplit exam_train exam_val =>
        gen_source tg = FromExamList exam_train /\
        gen_source vg = FromExamList exam_val
    | ImgSplit img_train img_val lab_train lab_val =>
        gen_source tg = FromImgList img_train lab_train /\
        gen_source vg = FromImgList img_val lab_val
    end.
Proof.
  unfold make_generators, target_size, img_size_at.
  destruct (nth_error (img_size a) 0) as [h |]; cbv [ebind]; [| discriminate].
  destruct (nth_error (img_size a) 1) as [wd |]; [| discriminate].
  intros H. exists h, wd. destruct d; injection H as <- <-; simpl; auto 10.
Qed.

Lemma fit_model_keywords w a p m fa :
  In (FitGenerator m fa) (events (fit_model w a p)) ->
  exists ckpt vdata,
    auc_checkpointer a (validation_set p) (val_generator p) (val_size_ (data p))
      = inr ckpt /\
    validation_data a (validation_set p) (val_generator p) = inr vdata /\
    fa = {| fit_generator := train_generator p;
            fit_samples_per_epoch := samples_per_epoch a;
            fit_nb_epoch := nb_epoch a;
            fit_class_weight := class_weight a;
            fit_validation_data := vdata;
            fit_nb_val_samples := val_size_ (data p);
            fit_callbacks :=
              [ReduceLROnPlateau "val_loss" float_0_1 (lr_patience a) 1;
               EarlyStopping "val_loss" (es_patience a) 1; ckpt];
            fit_nb_worker := nb_worker p;
            fit_pickle_safe := true;
            fit_verbose := 2 |}.
Proof.
  unfold fit_model.
  rewrite in_events_bind. intros [[] | (mv & _ & H)]. revert H.
  rewrite in_events_bind. intros [[] | (mv' & _ & H)]. revert H.
  rewrite in_events_bind. intros [[] | (m' & _ & H)].
  apply in_events_bind in H as [[[=] | []] | (_ & _ & H)].
  apply in_events_bind in H as [[] | (ckpt & Hk & H)].
  apply in_events_bind in H as [[] | (vdata & Hv & H)].
  apply in_events_bind in H as [[[= _ <-] | []] | (_ & _ & [])].
  exists ckpt, vdata. auto.
Qed.

Lemma prepare_events_exact w a p :
  outcome (prepare w a) = inr p ->
  events (prepare w a) = if load_val_ram a then [Next (val_generator p)] else [].
Proof.
  unfold prepare. intros H.
  apply outcome_bind_inr in H as (seed & H1 & H). rewrite outcome_lift in H1.
  rewrite bind_lift, H1.
  apply outcome_bind_inr in H as (nw & H2 & H). rewrite outcome_lift in H2.
  rewrite bind_lift, H2.
  apply outcome_bind_inr in H as (gc & H3 & H). rewrite outcome_lift in H3.
  rewrite bind_lift, H3.
  apply outcome_bind_inr in H as (d & H4 & H). rewrite outcome_lift in H4.
  rewrite bind_lift, H4.
  apply outcome_bind_inr in H as (gens & H5 & H). rewrite outcome_lift in H5.
  rewrite bind_lift, H5.
  apply outcome_bind_inr in H as (vs & H6 & [= <-]). simpl.
  rewrite events_bind, H6. simpl. rewrite app_nil_r.
  unfold load_validation_set in *. destruct (load_val_ram a); [| reflexivity].
  apply outcome_bind_inr in H6 as (_ & _ & H6).
  apply outcome_bind_inr in H6 as ([] & Hc & _). rewrite outcome_lift in Hc.
  rewrite events_bind. unfold emit at 1 2. unfold events at 1, outcome at 1.
  cbn [fst snd]. now rewrite bind_lift, Hc.
Qed.

Lemma fit_model_completed w a p m h :
  outcome (fit_model w a p) = inr (m, h) ->
  exists fa,
    events (fit_model w a p) =
      [Compile m (SGD (init_lr a) float_0_9 float_zero true) "binary_crossentropy"
         [DMMetrics_sensitivity; DMMetrics_specificity];
       FitGenerator m fa] /\
    h = fit_history w m fa.
Proof.
  unfold fit_model. intros H.
  apply outcome_bind_inr in H as (mv & Hc & H). rewrite outcome_lift in Hc.
  rewrite bind_lift, Hc.
  apply outcome_bind_inr in H as (mv' & Hr & H). rewrite outcome_lift in Hr.
  rewrite bind_lift, Hr.
  apply outcome_bind_inr in H as (m' & Hm & H). rewrite outcome_lift in Hm.
  rewrite bind_lift, Hm.
  apply outcome_bind_inr in H as (_ & _ & H).
  apply outcome_bind_inr in H as (ckpt & Hk & H). rewrite outcome_lift in Hk.
  apply outcome_bind_inr in H as (vdata & Hv & H). rewrite outcome_lift in Hv.
  apply outcome_bind_inr in H as (_ & _ & [= <- <-]).
  rewrite events_bind. unfold emit at 1 2. unfold events at 1, outcome at 1.
  cbn [fst snd]. rewrite bind_lift, Hk, bind_lift, Hv.
  eexists. split; reflexivity.
Qed.

(** ** Environment variables *)

Lemma prepare_malformed_environment w a name s :
  In name ["RANDOM_SEED"; "NUM_CPU_CORES"; "NUM_GPU_DEVICES"]%string ->
  environ w !! name = Some s -> int_of_str w s = None ->
  prepare w a = ([], inl ValueError).
Proof.
  intros Hname Hs Hbad. unfold prepare.
  destruct Hname as [<- | [<- | [<- | []]]].
  - now rewrite bind_lift, (int_getenv_malformed _ _ _ _ Hs Hbad).
  - rewrite bind_lift.
    destruct (int_getenv w "RANDOM_SEED" 12345) as [e | seed] eqn:E1.
    { now rewrite (int_getenv_failure _ _ _ _ E1). }
    now rewrite bind_lift, (int_getenv_malformed _ _ _ _ Hs Hbad).
  - rewrite bind_lift.
    destruct (int_getenv w "RANDOM_SEED" 12345) as [e | seed] eqn:E1.
    { now rewrite (int_getenv_failure _ _ _ _ E1). }
    rewrite bind_lift.
    destruct (int_getenv w "NUM_CPU_CORES" 4) as [e | nw] eqn:E2.
    { now rewrite (int_getenv_failure _ _ _ _ E2). }
    now rewrite bind_lift, (int_getenv_malformed _ _ _ _ Hs Hbad).
Qed.

(** X1.  When one of the variables RANDOM_SEED, NUM_CPU_CORES and
    NUM_GPU_DEVICES is set to something [int] does not accept, [run] raises
    [ValueError] before it has done anything, whatever its arguments are. *)
Theorem malformed_environment_stops_run w a name s :
  In name ["RANDOM_SEED"; "NUM_CPU_CORES"; "NUM_GPU_DEVICES"]%string ->
  environ w !! name = Some s ->
  int_of_str w s = None ->
  run w a = ([], inl ValueError).
Proof.
  intros Hname Hs Hbad. unfold run, train.
  now rewrite (prepare_malformed_environment w a name s Hname Hs Hbad).
Qed.

Lemma malformed_environment_stops_run_witness :
  run (Sample.outside {["NUM_CPU_CORES"%string := "four"%string]} Sample.good_history)
      Sample.defaults
  = ([], inl ValueError).
Proof.
  apply (malformed_environment_stops_run _ _ "NUM_CPU_CORES"%string "four"%string).
  - simpl. tauto.
  - vm_compute. reflexivity.
  - vm_compute. reflexivity.
Defined.

(** X2.  In every run that reaches the training call, the seed read from
    RANDOM_SEED (12345 when unset) is both the [random_state] of the split
    and the [seed] of the shuffling training generator, and the worker count
    read from NUM_CPU_CORES (4 when unset) is the [nb_worker] keyword. *)
Theorem environment_reaches_split_and_training w a m fa :
  In (FitGenerator m fa) (events (run w a)) ->
  exists seed workers d,
    int_getenv w "RANDOM_SEED" 12345 = inr seed /\
    int_getenv w "NUM_CPU_CORES" 4 = inr workers /\
    (environ w !! "RANDOM_SEED"%string = None -> seed = 12345) /\
    (environ w !! "NUM_CPU_CORES"%string = None -> workers = 4) /\
    split_data w a seed = inr d /\
    flow_seed (gen_args (fit_generator fa)) = Some seed /\
    flow_shuffle (gen_args (fit_generator fa)) = Some true /\
    fit_nb_worker fa = workers.
Proof.
  intros H. apply run_fit_event in H as (p & Hp & H).
  apply prepare_inr in Hp as (Hseed & Hw & _ & Hd & Hg & _).
  apply fit_model_keywords in H as (ckpt & vdata & _ & _ & ->).
  apply make_generators_inr in Hg as (h & wd & _ & _ & _ & _ & Htg & _).
  exists (random_seed p), (nb_worker p), (data p). simpl. rewrite Htg. simpl.
  repeat split; try assumption; try reflexivity.
  - intros Hn. rewrite (int_getenv_unset _ _ _ Hn) in Hseed. congruence.
  - intros Hn. rewrite (int_getenv_unset _ _ _ Hn) in Hw. congruence.
Qed.

Lemma environment_reaches_split_and_training_witness :
  exists m fa,
    In (FitGenerator m fa)
       (events (run (Sample.outside {["RANDOM_SEED"%string := "7"%string]}
                       Sample.good_history) Sample.defaults)) /\
    flow_seed (gen_args (fit_generator fa)) = Some 7 /\
    fit_nb_worker fa = 4.
Proof.
  eexists _, _.
  match goal with
  | |- In ?ev ?evs /\ _ =>
      assert (Hin : In ev evs) by (vm_compute; right; left; reflexivity)
  end.
  split; [exact Hin |].
  destruct (environment_reaches_split_and_training _ _ _ _ Hin)
    as (seed & workers & d & Hs & Hw & _ & Hdef & _ & Hfs & _ & Hnw).
  vm_compute in Hs. injection Hs as <-.
  rewrite Hfs, Hnw. split; [reflexivity |]. apply Hdef. vm_compute. reflexivity.
Defined.

(** ** Generators and validation data *)

(** X3.  In every run that reaches the training call, the training generator
    was made from the training part of the split, with [batch_size], the
    target size [(img_size[0], img_size[1])] and no [validation_mode]
    keyword; when the validation data handed over is a generator, that
    generator was made from the validation part of the same split, with
    [validation_mode=True], the same batch size and target size, and no
    [shuffle], [seed], [balance_classes] or [all_neg_skip] keyword. *)
Theorem generators_read_their_part_of_the_split w a m fa :
  In (FitGenerator m fa) (events (run w a)) ->
  exists seed d h wd,
    int_getenv w "RANDOM_SEED" 12345 = inr seed /\
    split_data w a seed = inr d /\
    nth_error (img_size a) 0 = Some h /\
    nth_error (img_size a) 1 = Some wd /\
    gen_source (fit_generator fa) =
      match d with
      | ExamSplit exam_train _ => FromExamList exam_train
      | ImgSplit img_train _ lab_train _ => FromImgList img_train lab_train
      end /\
    flow_target_size (gen_args (fit_generator fa)) = (h, wd) /\
    flow_batch_size (gen_args (fit_generator fa)) = batch_size a /\
    flow_validation_mode (gen_args (fit_generator fa)) = None /\
    forall vg, fit_validation_data fa = ValGen vg ->
      load_val_ram a = false /\
      gen_source vg =
        match d with
        | ExamSplit _ exam_val => FromExamList exam_val
        | ImgSplit _ img_val _ lab_val => FromImgList img_val lab_val
        end /\
      flow_target_size (gen_args vg) = (h, wd) /\
      flow_batch_size (gen_args vg) = batch_size a /\
      flow_validation_mode (gen_args vg) = Some true /\
      flow_shuffle (gen_args vg) = None /\
      flow_seed (gen_args vg) = None /\
      flow_balance_classes (gen_args vg) = None /\
      flow_all_neg_skip (gen_args vg) = None.
Proof.
  intros H. apply run_fit_event in H as (p & Hp & H).
  apply prepare_inr in Hp as (Hseed & _ & _ & Hd & Hg & _).
  apply fit_model_keywords in H as (ckpt & vdata & _ & Hv & ->).
  apply make_generators_inr in Hg as (h & wd & H0 & H1 & _ & _ & Htg & Hvg & Hsrc).
  exists (random_seed p), (data p), h, wd. simpl. rewrite Htg. simpl.
  split; [exact Hseed |]. split; [exact Hd |]. split; [exact H0 |].
  split; [exact H1 |]. split; [destruct (data p); tauto |].
  split; [reflexivity |]. split; [reflexivity |]. split; [reflexivity |].
  intros vg0 ->. unfold validation_data in Hv.
  destruct (load_val_ram a) eqn:Hram.
  { apply ebind_inr in Hv as (? & _ & [=]). }
  injection Hv as <-. rewrite Hvg. simpl.
  split; [reflexivity |]. split; [destruct (data p); tauto |].
  repeat split; reflexivity.
Qed.

Lemma generators_read_their_part_of_the_split_witness :
  exists m fa vg,
    In (FitGenerator m fa)
       (events (run (Sample.outside ∅ Sample.good_history) Sample.defaults)) /\
    fit_validation_data fa = ValGen vg /\
    gen_source (fit_generator fa)
    = FromImgList [PyStr "a.dcm"; PyStr "b.dcm"; PyStr "c.dcm"] [PyInt 0; PyInt 1; PyInt 0] /\
    gen_source vg = FromImgList [PyStr "d.dcm"; PyStr "e.dcm"] [PyInt 1; PyInt 0].
Proof.
  eexists _, _, _.
  match goal with
  | |- In ?ev ?evs /\ _ =>
      assert (Hin : In ev evs) by (vm_compute; right; left; reflexivity)
  end.
  split; [exact Hin |]. split; [reflexivity |].
  destruct (generators_read_their_part_of_the_split _ _ _ _ Hin)
    as (seed & d & h & wd & Hs & Hd & _ & _ & Htr & _ & _ & _ & Hval).
  vm_compute in Hs. injection Hs as <-. vm_compute in Hd. injection Hd as <-.
  split; [exact Htr |]. exact (proj1 (proj2 (Hval _ eq_refl))).
Defined.

(** X4.  In every run that reaches the training call with the validation set
    loaded into RAM, the validation data handed over is the one batch read
    from the validation generator; that generator reads the validation part
    of the split in validation mode with a batch size of [val_size_], the
    value also passed as [nb_val_samples]; and it is read exactly once. *)
Theorem preloaded_validation_set_is_one_whole_batch w a m fa :
  In (FitGenerator m fa) (events (run w a)) ->
  load_val_ram a = true ->
  exists seed d vg,
    int_getenv w "RANDOM_SEED" 12345 = inr seed /\
    split_data w a seed = inr d /\
    fit_validation_data fa = ValSet (next_batch w vg) /\
    gen_source vg =
      match d with
      | ExamSplit _ exam_val => FromExamList exam_val
      | ImgSplit _ img_val _ lab_val => FromImgList img_val lab_val
      end /\
    flow_validation_mode (gen_args vg) = Some true /\
    flow_batch_size (gen_args vg) = val_size_ d /\
    fit_nb_val_samples fa = val_size_ d /\
    List.filter (fun ev => match ev with Next _ => true | _ => false end)
      (events (run w a)) = [Next vg].
Proof.
  intros H Hram. apply run_fit_event in H as (p & Hp & H).
  pose proof (prepare_events_exact _ _ _ Hp) as Hev.
  pose proof (prepare_inr _ _ _ Hp) as (Hseed & _ & _ & Hd & Hg & Hl).
  apply fit_model_keywords in H as (ckpt & vdata & _ & Hv & ->).
  apply make_generators_inr in Hg as (h & wd & _ & _ & _ & _ & _ & Hvg & Hsrc).
  apply load_validation_set_inr in Hl. rewrite Hram in Hl, Hev, Hvg.
  destruct Hl as [Hset _]. unfold validation_data in Hv.
  rewrite Hram, Hset in Hv. injection Hv as <-.
  exists (random_seed p), (data p), (val_generator p). simpl. rewrite Hvg. simpl.
  split; [exact Hseed |]. split; [exact Hd |]. split; [reflexivity |].
  split; [destruct (data p); tauto |].
  split; [reflexivity |]. split; [reflexivity |]. split; [reflexivity |].
  unfold run, train. rewrite events_bind, events_bind, Hp, Hev.
  rewrite !List.filter_app. simpl. f_equal.
  rewrite (filter_none _ (events (fit_model w a p))).
  2: { intros ev Hin.
       apply fit_model_events in Hin
         as (base & m' & _ & _ & [(o & l & ms & ->) | (fa' & ckpt' & -> & _)]);
         reflexivity. }
  apply filter_none. intros ev Hin.
  destruct (outcome (p0 <- prepare w a;; fit_model w a p0)%run) as [e | [m' h']];
    [contradiction |].
  apply in_events_bind in Hin as [Hin | (u & Hr & Hin)].
  - apply training_report_prints in Hin. now destruct ev.
  - apply in_events_bind in Hin as [Hin | (u' & _ & [])].
    apply save_final_events in Hin as [-> _]. reflexivity.
Qed.

Lemma preloaded_validation_set_is_one_whole_batch_witness :
  exists m fa vs,
    In (FitGenerator m fa)
       (events (run (Sample.outside ∅ Sample.good_history)
                  (Sample.options_of (Sample.parsed true true true "resnet50" "NOSAVE")))) /\
    fit_validation_data fa = ValSet vs /\
    fit_nb_val_samples fa = 4.
Proof.
  eexists _, _, _.
  match goal with
  | |- In ?ev ?evs /\ _ =>
      assert (Hin : In ev evs) by (vm_compute; right; right; left; reflexivity)
  end.
  split; [exact Hin |]. split; [reflexivity |].
  destruct (preloaded_validation_set_is_one_whole_batch _ _ _ _ Hin eq_refl)
    as (seed & d & vg & Hs & Hd & _ & _ & _ & _ & Hn & _).
  vm_compute in Hs. injection Hs as <-. vm_compute in Hd. injection Hd as <-.
  rewrite Hn. reflexivity.
Defined.

(** X5.  In every run that reaches the training call, the AUC checkpointer
    is given the very validation data the training call is given; with the
    validation set in RAM it gets [batch_size] and no [nb_test_samples],
    otherwise it gets no [batch_size] and, as [nb_test_samples], the value
    passed as [nb_val_samples]. *)
Theorem checkpointer_shares_validation_data w a m fa :
  In (FitGenerator m fa) (events (run w a)) ->
  exists bs nt,
    last (fit_callbacks fa)
    = Some (DMAucModelCheckpoint (best_model a) (fit_validation_data fa) bs nt) /\
    if load_val_ram a
    then (exists vs, fit_validation_data fa = ValSet vs) /\
         bs = Some (batch_size a) /\ nt = None
    else (exists vg, fit_validation_data fa = ValGen vg) /\
         bs = None /\ nt = Some (fit_nb_val_samples fa).
Proof.
  intros H. apply run_fit_event in H as (p & _ & H).
  apply fit_model_keywords in H as (ckpt & vdata & Hk & Hv & ->). simpl.
  unfold auc_checkpointer in Hk. unfold validation_data in Hv.
  destruct (load_val_ram a).
  - apply ebind_inr in Hk as (vs & Hvs & [= <-]).
    apply ebind_inr in Hv as (vs' & Hvs' & [= <-]).
    rewrite Hvs in Hvs'. injection Hvs' as <-. eauto 10.
  - injection Hk as <-. injection Hv as <-. eauto 10.
Qed.

Lemma checkpointer_shares_validation_data_witness :
  exists m fa bs nt,
    In (FitGenerator m fa)
       (events (run (Sample.outside ∅ Sample.good_history) Sample.defaults)) /\
    last (fit_callbacks fa)
    = Some (DMAucModelCheckpoint "./modelState/dm_resnet_best_model.h5"
              (fit_validation_data fa) bs nt) /\
    nt = Some 2.
Proof.
  eexists _, _, _, _.
  match goal with
  | |- In ?ev ?evs /\ _ =>
      assert (Hin : In ev evs) by (vm_compute; right; left; reflexivity)
  end.
  split; [exact Hin |].
  destruct (checkpointer_shares_validation_data _ _ _ _ Hin) as (bs & nt & Hl & Hm).
  change (load_val_ram Sample.defaults) with false in Hm.
  destruct Hm as (_ & -> & ->).
  split; [exact Hl | reflexivity].
Defined.

(** ** The size check, seen from a run *)

(** X6.  In every multi-view run that reaches the training call with the
    validation set loaded into RAM, the batch handed over has a left and a
    right array that both hold exactly [nb_val_samples] entries. *)
Theorem multi_view_preloaded_batch_is_complete w a m fa :
  In (FitGenerator m fa) (events (run w a)) ->
  load_val_ram a = true ->
  multi_view a = true ->
  exists vs, fit_validation_data fa = ValSet vs /\
             batch_matches true vs (fit_nb_val_samples fa).
Proof.
  intros H Hram Hmv. apply run_fit_event in H as (p & Hp & H).
  apply prepare_inr in Hp as (_ & _ & _ & _ & _ & Hl).
  apply fit_model_keywords in H as (ckpt & vdata & _ & Hv & ->). simpl.
  apply load_validation_set_inr in Hl. rewrite Hram, Hmv in Hl.
  destruct Hl as [Hset Hcheck]. unfold validation_data in Hv.
  rewrite Hram, Hset in Hv. injection Hv as <-.
  eexists. split; [reflexivity |]. now apply check_multi_view_passes.
Qed.

Lemma multi_view_preloaded_batch_is_complete_witness :
  exists m fa vs,
    In (FitGenerator m fa)
       (events (run (Sample.outside ∅ Sample.good_history)
                  (Sample.options_of (Sample.parsed true true true "resnet50" "NOSAVE")))) /\
    fit_validation_data fa = ValSet vs /\
    batch_matches true vs 4.
Proof.
  eexists _, _, _.
  match goal with
  | |- In ?ev ?evs /\ _ =>
      assert (Hin : In ev evs) by (vm_compute; right; right; left; reflexivity)
  end.
  split; [exact Hin |]. split; [reflexivity |].
  destruct (multi_view_preloaded_batch_is_complete _ _ _ _ Hin eq_refl eq_refl)
    as (vs & Hvs & Hm).
  injection Hvs as <-. exact Hm.
Defined.

Lemma string_get_in_range s i c :
  String.get i s = Some c -> (i < String.length s)%nat.
Proof.
  revert i. induction s as [| c' s IH]; intros i; simpl; [discriminate |].
  destruct i as [| i]; [lia |]. intros H. apply IH in H. lia.
Qed.

(** An index that can be read is below the length. *)
Lemma py_getitem_in_range x i y :
  py_getitem x i = inr y -> exists k, py_len x = inr k /\ Z.of_nat i < k.
Proof.
  destruct x as [| z | f | s | xs]; simpl; try discriminate.
  - destruct (String.get i s) as [c |] eqn:E; [| discriminate]. intros _.
    apply string_get_in_range in E. eexists. split; [reflexivity | lia].
  - destruct (nth_error xs i) as [v |] eqn:E; [| discriminate]. intros _.
    assert ((i < length xs)%nat) by (apply nth_error_Some; congruence).
    eexists. split; [reflexivity | lia].
Qed.

(** X7.  In single-view mode with the validation set loaded into RAM, when
    the first image of the batches read from image lists has length one (one
    channel, channels first), no run gets past the size check: it ends in an
    exception and nothing is ever compiled, whatever the size of the batch. *)
Theorem single_view_preload_stops_on_one_channel_images w a :
  multi_view a = false ->
  load_val_ram a = true ->
  (forall vg imgs labs x img0,
     gen_source vg = FromImgList imgs labs ->
     py_getitem (next_batch w vg) 0 = inr x ->
     py_getitem x 0 = inr img0 ->
     py_len img0 = inr 1) ->
  (exists e, outcome (run w a) = inl e) /\
  forall m o l ms, ~ In (Compile m o l ms) (events (run w a)).
Proof.
  intros Hmv Hram Himg.
  assert (Hstop : forall p, outcome (prepare w a) <> inr p).
  { intros p Hp.
    apply prepare_inr in Hp as (_ & _ & _ & Hd & Hg & Hl).
    apply split_data_shape in Hd. rewrite Hmv in Hd.
    destruct Hd as (it & iv & lt & lv & _ & Hd).
    apply make_generators_inr in Hg as (h & wd & _ & _ & _ & _ & _ & _ & Hsrc).
    rewrite Hd in Hsrc. destruct Hsrc as [_ Hsrc].
    apply load_validation_set_inr in Hl. rewrite Hram, Hmv in Hl.
    destruct Hl as [_ Hcheck].
    apply check_single_view_passes_only_if in Hcheck
      as (x & img0 & img1 & Hx & Hlen & H0 & Hlen0 & H1 & _).
    rewrite (Himg _ _ _ _ _ Hsrc Hx H0) in Hlen0. injection Hlen0 as Hone.
    apply py_getitem_in_range in H1 as (k & Hk & Hlt).
    rewrite Hlen in Hk. injection Hk as <-. simpl in Hlt. lia. }
  split.
  - destruct (outcome (prepare w a)) as [e | p] eqn:Hp; [| now destruct (Hstop p)].
    exists e. unfold run, train. now rewrite !outcome_bind, Hp.
  - intros m o l ms H. apply run_compile_event in H as (p & Hp & _).
    exact (Hstop p Hp).
Qed.

Lemma single_view_preload_stops_on_one_channel_images_witness :
  exists e,
    outcome (run (Sample.outside ∅ Sample.good_history)
               (Sample.options_of (Sample.parsed false true true "resnet50" "NOSAVE")))
    = inl e.
Proof.
  apply (single_view_preload_stops_on_one_channel_images
           (Sample.outside ∅ Sample.good_history)
           (Sample.options_of (Sample.parsed false true true "resnet50" "NOSAVE"))).
  - reflexivity.
  - reflexivity.
  - intros vg imgs labs x img0 Hsrc Hx H0. simpl in Hx.
    unfold Sample.whole_batch in Hx. rewrite Hsrc in Hx. simpl in Hx.
    injection Hx as <-. destruct imgs as [| i imgs]; [discriminate |].
    simpl in H0. injection H0 as <-. reflexivity.
Defined.

(** ** Model creation *)

(** X8.  With [resume_from] given, every run that reaches compilation
    compiles the model loaded from that path, replicated or not, with the
    custom objects [sensitivity] and [specificity] and no others: [net] and
    the builders play no part, so an unrecognized [net] does no harm. *)
Theorem resumed_model_is_loaded_whatever_the_net w a path m o l ms :
  resume_from a = Some path ->
  In (Compile m o l ms) (events (run w a)) ->
  exists objs,
    dom objs = ({["sensitivity"; "specificity"]} : gset string) /\
    objs !! "sensitivity"%string = Some DMMetrics_sensitivity /\
    objs !! "specificity"%string = Some DMMetrics_specificity /\
    (m = load_model path objs \/ exists g, 1 < g /\ m = make_parallel (load_model path objs) g).
Proof.
  intros Hres H. apply run_compile_event in H as (p & _ & H).
  apply fit_model_events in H as (base & m' & Hc & Hm & [(o' & l' & ms' & [= <- _ _ _]) | H]).
  2: { destruct H as (fa & ckpt & [=] & _). }
  unfold create_model in Hc. rewrite Hres in Hc. injection Hc as <-.
  exists (<["specificity"%string := DMMetrics_specificity]>
            (<["sensitivity"%string := DMMetrics_sensitivity]> ∅)).
  split; [| split; [| split]].
  - rewrite !dom_insert_L, dom_empty_L, (right_id_L ∅ (∪)).
    apply (comm_L (∪)).
  - rewrite lookup_insert_ne by discriminate. apply lookup_insert_eq.
  - apply lookup_insert_eq.
  - destruct (Z.gtb_spec (gpu_count p) 1); subst m;
      [right; exists (gpu_count p); split; [lia | reflexivity] | left; reflexivity].
Qed.

Lemma resumed_model_is_loaded_whatever_the_net_witness :
  exists m o l ms,
    In (Compile m o l ms)
       (events (run (Sample.outside ∅ Sample.good_history)
                  (resuming "last.h5"
                     (Sample.options_of (Sample.parsed false true false "vgg16" "NOSAVE"))))) /\
    exists objs, m = load_model "last.h5" objs.
Proof.
  eexists _, _, _, _.
  match goal with
  | |- In ?ev ?evs /\ _ =>
      assert (Hin : In ev evs) by (vm_compute; left; reflexivity)
  end.
  split; [exact Hin |].
  destruct (resumed_model_is_loaded_whatever_the_net
              (Sample.outside ∅ Sample.good_history)
              (resuming "last.h5"
                 (Sample.options_of (Sample.parsed false true false "vgg16" "NOSAVE")))
              "last.h5"%string _ _ _ _ eq_refl Hin)
    as (objs & _ & _ & _ & [H | (g & _ & H)]).
  - exists objs. exact H.
  - discriminate H.
Defined.

Lemma select_architecture_injective n1 n2 arch :
  select_architecture n1 = Some arch -> select_architecture n2 = Some arch -> n1 = n2.
Proof.
  unfold select_architecture.
  repeat match goal with
         | |- context [String.eqb n1 ?s] =>
             destruct (String.eqb_spec n1 s) as [-> | ?]
         end;
    try discriminate; intros [= <-];
    repeat match goal with
           | |- context [String.eqb n2 ?s] =>
               destruct (String.eqb_spec n2 s) as [-> | ?]
           end;
    try discriminate; reflexivity.
Qed.

(** X9.  Without [resume_from], every run that reaches compilation compiles
    (replicated or not) a model built by the multi-view builder in multi-view
    mode and by the plain one otherwise, with the input shape
    [(1, img_size[0], img_size[1])], one output and this run's filter,
    pooling, regularisation and dropout arguments, through the builder
    method that [net] selects; and no other name selects that method. *)
Theorem built_model_follows_mode_name_and_size w a m o l ms :
  resume_from a = None ->
  In (Compile m o l ms) (events (run w a)) ->
  exists method h wd base,
    select_architecture (net a) = Some method /\
    (forall name, select_architecture name = Some method -> name = net a) /\
    nth_error (img_size a) 0 = Some h /\
    nth_error (img_size a) 1 = Some wd /\
    base = build (if multi_view a then MultiViewResNetBuilder else ResNetBuilder) method
             {| b_input_shape := (1, h, wd); b_num_outputs := 1;
                b_nb_init_filter := nb_init_filter a;
                b_init_filter_size := init_filter_size a;
                b_init_conv_stride := init_conv_stride a;
                b_pool_size := pool_size a; b_pool_stride := pool_stride a;
                b_weight_decay := weight_decay a; b_alpha := alpha a;
                b_l1_ratio := l1_ratio a; b_inp_dropout := inp_dropout a;
                b_hidden_dropout := hidden_dropout a |} /\
    (m = base \/ exists g, 1 < g /\ m = make_parallel base g).
Proof.
  intros Hres H. apply run_compile_event in H as (p & _ & H).
  apply fit_model_events in H as (base & m' & Hc & Hm & [(o' & l' & ms' & [= <- _ _ _]) | H]).
  2: { destruct H as (fa & ckpt & [=] & _). }
  unfold create_model in Hc. rewrite Hres in Hc.
  destruct (select_architecture (net a)) as [method |] eqn:Hsel; [| discriminate].
  unfold builder_args, img_size_at in Hc.
  destruct (nth_error (img_size a) 0) as [h |]; [| discriminate].
  destruct (nth_error (img_size a) 1) as [wd |]; [| discriminate].
  cbv [ebind] in Hc. injection Hc as <-.
  exists method, h, wd. eexists. split; [reflexivity |]. split.
  { intros name Hn. exact (select_architecture_injective _ _ _ Hn Hsel). }
  split; [reflexivity |]. split; [reflexivity |]. split; [reflexivity |].
  destruct (Z.gtb_spec (gpu_count p) 1); subst m;
    [right; exists (gpu_count p); split; [lia | reflexivity] | left; reflexivity].
Qed.

Lemma built_model_follows_mode_name_and_size_witness :
  exists m o l ms args,
    In (Compile m o l ms)
       (events (run (Sample.outside ∅ Sample.good_history)
                  (Sample.options_of (Sample.parsed true true false "dmresnet14" "NOSAVE")))) /\
    m = build MultiViewResNetBuilder build_dm_resnet_14 args /\
    b_input_shape args = (1, 288, 224).
Proof.
  eexists _, _, _, _, _.
  match goal with
  | |- In ?ev ?evs /\ _ =>
      assert (Hin : In ev evs) by (vm_compute; left; reflexivity)
  end.
  split; [exact Hin |].
  destruct (built_model_follows_mode_name_and_size
              (Sample.outside ∅ Sample.good_history)
              (Sample.options_of (Sample.parsed true true false "dmresnet14" "NOSAVE"))
              _ _ _ _ eq_refl Hin)
    as (method & h & wd & base & Hsel & _ & H0 & H1 & Hbase & [H | (g & _ & H)]).
  - vm_compute in Hsel. injection Hsel as <-.
    vm_compute in H0. injection H0 as <-. vm_compute in H1. injection H1 as <-.
    rewrite <- H in Hbase. split; [exact Hbase | reflexivity].
  - discriminate H.
Defined.

(** ** A whole run *)

(** X10.  A run that returns has done, in this order and nothing else: read
    the validation generator once if the validation set goes into RAM,
    compiled one model, trained that model once, printed the five lines of
    the training summary, and saved that same model under [final_model]
    unless [final_model] is NOSAVE; what it returns is the history of that
    training call. *)
Theorem completed_run_log w a h :
  outcome (run w a) = inr h ->
  exists p m fa i x se sp,
    outcome (prepare w a) = inr p /\
    h = fit_history w m fa /\
    events (run w a) =
      (if load_val_ram a then [Next (val_generator p)] else []) ++
      [Compile m (SGD (init_lr a) float_0_9 float_zero true) "binary_crossentropy"
         [DMMetrics_sensitivity; DMMetrics_specificity];
       FitGenerator m fa] ++
      summary_lines i x se sp ++
      (if String.eqb (final_model a) "NOSAVE" then [] else [Save m (final_model a)]).
Proof.
  intros H. unfold run in H.
  apply outcome_bind_inr in H as ([m h'] & Ht & H).
  apply outcome_bind_inr in H as ([] & Hr & H).
  apply outcome_bind_inr in H as ([] & _ & [= <-]).
  pose proof Ht as Ht'. unfold train in Ht'.
  apply outcome_bind_inr in Ht' as (p & Hp & Hf).
  destruct (fit_model_completed _ _ _ _ _ Hf) as (fa & Hfe & Hh).
  destruct (training_report_events h') as [He | (i & x & se & sp & He & _)].
  { exfalso. revert Hr He. unfold training_report.
    repeat (rewrite bind_lift;
            match goal with
            | |- context [match ?r with inl _ => _ | inr _ => _ end] =>
                destruct r; [discriminate |]
            end).
    discriminate. }
  exists p, m, fa, i, x, se, sp. split; [exact Hp |]. split; [exact Hh |].
  unfold run. rewrite events_bind, Ht. unfold train at 1.
  rewrite events_bind, Hp, (prepare_events_exact _ _ _ Hp), Hfe.
  rewrite events_bind, Hr, He. rewrite events_bind.
  unfold save_final. destruct (String.eqb (final_model a) "NOSAVE"); simpl;
    rewrite <- ?app_assoc; simpl; reflexivity.
Qed.

Lemma completed_run_log_witness :
  exists p m fa i x se sp,
    events (run (Sample.outside ∅ Sample.good_history)
              (Sample.options_of (Sample.parsed true true true "resnet18" "final.h5")))
    = [Next (val_generator p)] ++
      [Compile m (SGD (init_lr Sample.defaults) float_0_9 float_zero true)
         "binary_crossentropy" [DMMetrics_sensitivity; DMMetrics_specificity];
       FitGenerator m fa] ++
      summary_lines i x se sp ++ [Save m "final.h5"].
Proof.
  destruct (completed_run_log
              (Sample.outside ∅ Sample.good_history)
              (Sample.options_of (Sample.parsed true true true "resnet18" "final.h5"))
              Sample.good_history)
    as (p & m & fa & i & x & se & sp & _ & _ & H); [vm_compute; reflexivity |].
  exists p, m, fa, i, x, se, sp. exact H.
Defined.

(** X11.  When the training report fails after a completed training, the run
    fails with the same exception, has printed nothing and never saves the
    final model, whatever [final_model] is: its events are those of the
    training. *)
Theorem failed_report_skips_final_save w a m h e :
  outcome (train w a) = inr (m, h) ->
  outcome (training_report h) = inl e ->
  outcome (run w a) = inl e /\
  events (run w a) = events (train w a) /\
  printed (events (run w a)) = [] /\
  forall m' path, ~ In (Save m' path) (events (run w a)).
Proof.
  intros Ht Hr.
  assert (He : events (training_report h) = []).
  { destruct (training_report_events h) as [He | (i & x & se & sp & _ & Hok)];
      [exact He | congruence]. }
  assert (Hev : events (run w a) = events (train w a)).
  { unfold run. rewrite events_bind, Ht, events_bind, Hr, He. now rewrite !app_nil_r. }
  split; [| split; [exact Hev | split]].
  - unfold run. now rewrite outcome_bind, Ht, outcome_bind, Hr.
  - rewrite (run_printed _ _ _ _ Ht). exact He.
  - intros m' path H. rewrite Hev in H. unfold train in H.
    apply in_events_bind in H as [H | (p & _ & H)].
    + apply prepare_events in H as [g [=]].
    + apply fit_model_events in H
        as (base & m2 & _ & _ & [(o & l & ms & [=]) | (fa & ckpt & [=] & _)]).
Qed.

Lemma failed_report_skips_final_save_witness :
  exists m,
    outcome (train (Sample.outside ∅ Sample.nan_history)
               (Sample.options_of (Sample.parsed false true false "resnet50" "final.h5")))
    = inr (m, Sample.nan_history) /\
    outcome (run (Sample.outside ∅ Sample.nan_history)
               (Sample.options_of (Sample.parsed false true false "resnet50" "final.h5")))
    = inl IndexError.
Proof.
  eexists.
  match goal with
  | |- ?t = ?r /\ _ => assert (Ht : t = r) by (vm_compute; reflexivity)
  end.
  split; [exact Ht |].
  refine (proj1 (failed_report_skips_final_save _ _ _ _ IndexError Ht _)).
  vm_compute. reflexivity.
Defined.

(** X12.  How the training report fails: with [KeyError] when the history
    has no [val_loss], and when it has a usable [val_loss] but no
    [val_sensitivity]; with [ValueError] when [val_loss] is empty; with
    [IndexError] when the sensitivity history is shorter than the epoch of
    the lowest loss.  Nothing is printed in any of these cases. *)
Theorem report_failure_modes (h : history) :
  (h !! "val_loss"%string = None -> training_report h = ([], inl KeyError)) /\
  (h !! "val_loss"%string = Some [] -> training_report h = ([], inl ValueError)) /\
  (forall x0 r, h !! "val_loss"%string = Some (x0 :: r) -> is_nan x0 = false ->
     (h !! "val_sensitivity"%string = None -> training_report h = ([], inl KeyError)) /\
     (forall vs i x, h !! "val_sensitivity"%string = Some vs ->
        first_minimum (x0 :: r) i x -> (length vs <= i)%nat ->
        training_report h = ([], inl IndexError))).
Proof.
  split; [| split].
  - intros H. unfold training_report, dict_get. now rewrite H.
  - intros H. unfold training_report, dict_get. now rewrite H.
  - intros x0 r Hl Hx.
    destruct (first_location_is_first_minimum x0 r Hx) as (m & i & x & Hmin & Hloc & Hfm).
    pose proof Hfm as (Hi & _).
    split.
    + intros Hs. unfold training_report, dict_get. rewrite Hl, Hs.
      rewrite bind_lift. rewrite bind_lift, Hmin. rewrite bind_lift, Hloc.
      unfold list_get. rewrite bind_lift, Hi. now rewrite bind_lift.
    + intros vs i' x' Hs Hfm' Hshort.
      destruct (first_minimum_unique _ _ _ _ _ Hfm Hfm') as [<- <-].
      unfold training_report, dict_get. rewrite Hl, Hs.
      rewrite bind_lift. rewrite bind_lift, Hmin. rewrite bind_lift, Hloc.
      unfold list_get. rewrite bind_lift, Hi. rewrite bind_lift.
      apply nth_error_None in Hshort. now rewrite bind_lift, Hshort.
Qed.

Lemma report_failure_modes_witness :
  training_report (<["val_loss"%string := [Sample.f64 1 (-1)]]> ∅) = ([], inl KeyError).
Proof.
  refine (proj1 (proj2 (proj2 (report_failure_modes
            (<["val_loss"%string := [Sample.f64 1 (-1)]]> ∅)))
            (Sample.f64 1 (-1)) [] _ _) _);
    vm_compute; reflexivity.
Defined.

(** ** The command line *)

Lemma digits2_pos_lower m : 2 ^ (Z.pos (digits2_pos m) - 1) <= Z.pos m.
Proof.
  induction m as [p IH | p IH |]; simpl digits2_pos.
  - rewrite Pos2Z.inj_succ.
    replace (Z.succ (Z.pos (digits2_pos p)) - 1) with (Z.succ (Z.pos (digits2_pos p) - 1)) by lia.
    rewrite Z.pow_succ_r by lia. lia.
  - rewrite Pos2Z.inj_succ.
    replace (Z.succ (Z.pos (digits2_pos p)) - 1) with (Z.succ (Z.pos (digits2_pos p) - 1)) by lia.
    rewrite Z.pow_succ_r by lia. lia.
  - simpl. lia.
Qed.

(** X13.  For a binary64 [val_size], what the command line forwards is
    either that float, and then it is below one, or an int, and then the int
    is its integer part and is at least one: [run] never gets an int below
    one, nor a float that is not below one, from the command line. *)
Theorem forwarded_val_size_is_fraction_or_positive_count v r :
  valid_binary 53 1024 v = true ->
  forwarded_val_size v = inr r ->
  (r = PyFloat v /\ SFltb v float_one = true) \/
  (exists z, r = PyInt z /\ 1 <= z /\ is_truncation v z /\ SFltb v float_one = false).
Proof.
  intros Hvalid. unfold forwarded_val_size.
  destruct (SFltb v float_one) eqn:Hlt; [intros [= <-]; now left |].
  destruct v as [s | s | | s m e]; try discriminate.
  destruct (py_int_of_float_truncates s m e) as (z & Hz & Htr). rewrite Hz.
  intros [= <-]. right. exists z. split; [reflexivity |].
  split; [| split; [exact Htr | reflexivity]].
  destruct s; [discriminate |].
  simpl in Hz. injection Hz as <-.
  unfold SFltb, SFcompare, float_one in Hlt.
  destruct (Z.leb_spec 0 e) as [He | He].
  - assert (1 <= 2 ^ e) by (apply Z.lt_pred_le; apply Z.pow_pos_nonneg; lia). nia.
  - assert (He52 : -52 <= e).
    { destruct (Z.compare_spec e (-52)); [lia | discriminate | lia]. }
    simpl in Hvalid. unfold bounded, canonical_mantissa, fexp, emin in Hvalid.
    apply andb_prop in Hvalid as [Hcan _]. apply Z.eqb_eq in Hcan.
    assert (Hdig : Z.pos (digits2_pos m) = 53) by lia.
    pose proof (digits2_pos_lower m) as Hm. rewrite Hdig in Hm.
    assert (Hpow : 0 < 2 ^ (- e)) by (apply Z.pow_pos_nonneg; lia).
    assert (Hle : 2 ^ (- e) <= 2 ^ 52) by (apply Z.pow_le_mono_r; lia).
    change (53 - 1) with 52 in Hm.
    assert (0 < Z.pos m / 2 ^ (- e)) by (apply Z.div_str_pos; lia). lia.
Qed.

Lemma forwarded_val_size_is_fraction_or_positive_count_witness :
  exists z, forwarded_val_size (Sample.f64 3 (-1)) = inr (PyInt z) /\ 1 <= z.
Proof.
  destruct (forwarded_val_size_is_fraction_or_positive_count
              (Sample.f64 3 (-1)) (PyInt 1))
    as [[H _] | (z & H & Hz & _)]; [reflexivity | reflexivity | discriminate H |].
  exists z. split; [vm_compute; vm_compute in H; congruence | exact Hz].
Defined.

(** X14.  [main] either stops before it has printed or run anything, which
    happens exactly for a [val_size] that is NaN ([ValueError]) or positive
    infinity ([OverflowError]), or it prints the options and then does what
    [run] does on them, with [run]'s outcome; and every option other than
    [val_size] reaches [run] as it was parsed. *)
Theorem main_stops_or_prints_then_runs w (args : namespace) :
  (forall e, forwarded_val_size (val_size args) = inl e ->
     main w args = ([], inl e) /\
     ((val_size args = S754_nan /\ e = ValueError) \/
      (val_size args = S754_infinity false /\ e = OverflowError))) /\
  (forall opts, run_opts args = inr opts ->
     events (main w args) = PrintOptions opts :: events (run w opts) /\
     outcome (main w args) = outcome (run w opts) /\
     forwarded_val_size (val_size args) = inr (val_size opts) /\
     img_folder opts = img_folder args /\
     img_extension opts = img_extension args /\
     img_size opts = img_size args /\
     img_scale opts = img_scale args /\
     multi_view opts = multi_view args /\
     do_featurewise_norm opts = do_featurewise_norm args /\
     featurewise_mean opts = featurewise_mean args /\
     featurewise_std opts = featurewise_std args /\
     batch_size opts = batch_size args /\
     samples_per_epoch opts = samples_per_epoch args /\
     nb_epoch opts = nb_epoch args /\
     balance_classes opts = balance_classes args /\
     all_neg_skip opts = all_neg_skip args /\
     pos_cls_weight opts = pos_cls_weight args /\
     nb_init_filter opts = nb_init_filter args /\
     init_filter_size opts = init_filter_size args /\
     init_conv_stride opts = init_conv_stride args /\
     pool_size opts = pool_size args /\
     pool_stride opts = pool_stride args /\
     weight_decay opts = weight_decay args /\
     alpha opts = alpha args /\
     l1_ratio opts = l1_ratio args /\
     inp_dropout opts = inp_dropout args /\
     hidden_dropout opts = hidden_dropout args /\
     init_lr opts = init_lr args /\
     lr_patience opts = lr_patience args /\
     es_patience opts = es_patience args /\
     resume_from opts = resume_from args /\
     net opts = net args /\
     load_val_ram opts = load_val_ram args /\
     exam_tsv opts = exam_tsv args /\
     img_tsv opts = img_tsv args /\
     best_model opts = best_model args /\
     final_model opts = final_model args).
Proof.
  split.
  - intros e He. split.
    + unfold main, run_opts. now rewrite He.
    + unfold forwarded_val_size in He.
      destruct (val_size args) as [s | s | | s m e'].
      * discriminate.
      * destruct s; [discriminate |]. injection He as <-. now right.
      * injection He as <-. now left.
      * destruct (SFltb _ _); discriminate.
  - intros opts Ho. unfold main. rewrite Ho, bind_lift.
    rewrite events_bind, outcome_bind. simpl.
    split; [reflexivity |]. split; [reflexivity |].
    unfold run_opts in Ho.
    destruct (forwarded_val_size (val_size args)) as [e | vs]; [discriminate |].
    simpl in Ho. injection Ho as <-. simpl. repeat split; reflexivity.
Qed.

Lemma main_stops_or_prints_then_runs_witness :
  main (Sample.outside ∅ Sample.good_history)
       (Sample.parsed_sized Sample.nan false true false "resnet50" "NOSAVE")
  = ([], inl ValueError).
Proof.
  refine (proj1 (proj1 (main_stops_or_prints_then_runs _ _) ValueError _)).
  reflexivity.
Defined.
